(** * ollama-benchmark: the benchmark engine of [benchmark.py]

    A shallow embedding of [src/benchmark.py] and the properties of its
    metrics record, throughput calculation, aggregation, model selection and
    failure containment.

    - Python [int] is [Z] (unbounded).
    - Python [float] is IEEE 754 binary64, taken from the executable
      specification [SpecFloat] of the Standard Library; the two division
      operators of the program ([int / int] and [int / float]) follow
      CPython, with the exceptions they raise.
    - [print] appends an event to the standard output of the world; the
      backend ([ollama.chat], [ollama.list]) and the clock ([datetime.now])
      are the external part of the world. *)

From Stdlib Require Import ZArith List String Bool Lia DecimalString DecimalNat.
From Stdlib Require Import Floats.SpecFloat.
From stdpp Require Import gmap strings list.

Local Open Scope Z_scope.

(* ===================================================================== *)
(** * Python exceptions and results                                       *)
(* ===================================================================== *)

(** The subclasses of [Exception] the program can meet.  [BackendError] is
    any exception raised by the ollama client (connection refused, model
    not found, ...), with the name of its class. *)
Inductive exn : Type :=
| ZeroDivisionError
| OverflowError
| ValidationError
| BackendError (cls : string) (msg : string).

Definition exn_name (e : exn) : string :=
  match e with
  | ZeroDivisionError => "ZeroDivisionError"
  | OverflowError => "OverflowError"
  | ValidationError => "ValidationError"
  | BackendError cls _ => cls
  end.

Inductive result (A : Type) : Type :=
| Ok (a : A)
| Raise (e : exn).
Arguments Ok {A} a.
Arguments Raise {A} e.

Definition rbind {A C : Type} (r : result A) (k : A -> result C) : result C :=
  match r with
  | Ok a => k a
  | Raise e => Raise e
  end.

Notation "x <~ r ;; k" := (rbind r (fun x => k))
  (at level 60, r at next level, right associativity).

(* ===================================================================== *)
(** * Python floats                                                       *)
(* ===================================================================== *)

Module PyFloat.

Definition prec : Z := 53.
Definition emax : Z := 1024.

Definition float : Type := spec_float.

Definition is_zero (x : float) : bool :=
  match x with S754_zero _ => true | _ => false end.

Definition is_infinity (x : float) : bool :=
  match x with S754_infinity _ => true | _ => false end.

Definition is_nan (x : float) : bool :=
  match x with S754_nan => true | _ => false end.

(** Neither an infinity nor a NaN. *)
Definition is_finite (x : float) : bool :=
  match x with S754_zero _ | S754_finite _ _ _ => true | _ => false end.

(** An integer as the unrounded float [n * 2^0]. *)
Definition of_Z_exact (n : Z) : float :=
  match n with
  | Z0 => S754_zero false
  | Zpos p => S754_finite false p 0
  | Zneg p => S754_finite true p 0
  end.

(** [float(n)] for an [int] operand of a float operation
    (PyLong_AsDouble): round to nearest even; an [int] beyond the largest
    float raises OverflowError. *)
Definition of_int (n : Z) : result float :=
  let x := binary_normalize prec emax n 0 false in
  if is_infinity x then Raise OverflowError else Ok x.

(** [a / b] on two [int]s (long_true_divide): the correctly rounded
    quotient; division by zero and a quotient beyond the largest float
    raise. *)
Definition int_truediv (a b : Z) : result float :=
  if b =? 0 then Raise ZeroDivisionError
  else if a =? 0 then Ok (S754_zero (b <? 0))
  else
    let q := SFdiv prec emax (of_Z_exact a) (of_Z_exact b) in
    if is_infinity q then Raise OverflowError else Ok q.

(** [x / y] on two floats (float_div): only a zero divisor raises; an
    overflowing quotient is an infinity. *)
Definition float_truediv (x y : float) : result float :=
  if is_zero y then Raise ZeroDivisionError
  else Ok (SFdiv prec emax x y).

(** [n / y] with an [int] on the left: the [int] is converted first. *)
Definition int_truediv_float (n : Z) (y : float) : result float :=
  x <~ of_int n ;;
  float_truediv x y.

End PyFloat.


(* ===================================================================== *)
(** * Data model                                                          *)
(* ===================================================================== *)

Definition datetime : Type := Z.

(** [class Message(BaseModel)] *)
Record Message : Type := {
  role : string;
  content : string
}.

(** [class OllamaResponse(BaseModel)] *)
Record OllamaResponse : Type := {
  model : string;
  created_at : option datetime;
  message : Message;
  done : bool;
  total_duration : Z;
  load_duration : Z;
  prompt_eval_count : Z;
  prompt_eval_duration : Z;
  eval_count : Z;
  eval_duration : Z
}.

(** Modelled from the spec: the response object of the backend client
    ([ollama.ChatResponse] is a class of the ollama package, not of this
    repository).  Spec section 6 lists what each chunk or response carries;
    in Python every attribute may be [None] (the intermediate chunks of a
    stream carry no timing), hence the options. *)
Record RawMessage : Type := {
  raw_role : option string;
  raw_content : option string
}.

Record RawResponse : Type := {
  raw_model : option string;
  raw_message : RawMessage;
  raw_done : option bool;
  raw_total_duration : option Z;
  raw_load_duration : option Z;
  raw_prompt_eval_count : option Z;
  raw_prompt_eval_duration : option Z;
  raw_eval_count : option Z;
  raw_eval_duration : option Z
}.

(** Modelled from the spec: the lazy sequence returned by
    [ollama.chat(..., stream=True)] (spec section 6: a finite sequence of
    chunks); iterating it yields [stream_chunks] and then either stops or
    raises [stream_failure]. *)
Record Stream : Type := {
  stream_chunks : list RawResponse;
  stream_failure : option exn
}.

(** Validation of a field that is not Optional: [None] is rejected. *)
Definition required {A : Type} (v : option A) : result A :=
  match v with
  | Some a => Ok a
  | None => Raise ValidationError
  end.

(** [Message(role=..., content=...)]: both fields are [str]. *)
Definition Message_init (role content : option string) : result Message :=
  r <~ required role ;;
  c <~ required content ;;
  Ok {| role := r; content := c |}.

(** [OllamaResponse(model=..., ...)] with every field passed by keyword, as
    both call sites do.  The fields are plain [str], [bool] and [int]: no
    constraint beyond the type is declared (lines 37-46); only [created_at]
    is Optional. *)
Definition OllamaResponse_init
    (model : option string) (created_at : option datetime) (message : Message)
    (done : option bool)
    (total_duration load_duration prompt_eval_count prompt_eval_duration
       eval_count eval_duration : option Z) : result OllamaResponse :=
  m <~ required model ;;
  d <~ required done ;;
  td <~ required total_duration ;;
  ld <~ required load_duration ;;
  pc <~ required prompt_eval_count ;;
  pd <~ required prompt_eval_duration ;;
  ec <~ required eval_count ;;
  ed <~ required eval_duration ;;
  Ok {| model := m; created_at := created_at; message := message; done := d;
        total_duration := td; load_duration := ld;
        prompt_eval_count := pc; prompt_eval_duration := pd;
        eval_count := ec; eval_duration := ed |}.

(** [OllamaResponse.from_chat_response] (lines 48-72). *)
Definition from_chat_response (response : RawResponse) : result OllamaResponse :=
  msg <~ Message_init (raw_role (raw_message response))
                      (raw_content (raw_message response)) ;;
  OllamaResponse_init
    (raw_model response)
    None
    msg
    (raw_done response)
    (raw_total_duration response)
    (raw_load_duration response)
    (raw_prompt_eval_count response)
    (raw_prompt_eval_duration response)
    (raw_eval_count response)
    (raw_eval_duration response).

(* ===================================================================== *)
(** * Throughput                                                          *)
(* ===================================================================== *)

(** [nanosec_to_sec] (lines 121-123). *)
Definition nanosec_to_sec (nanosec : Z) : result PyFloat.float :=
  PyFloat.int_truediv nanosec 1000000000.

(** What the f-string of [inference_stats] renders (lines 148-166). *)
Record StatsReport : Type := {
  rep_model : string;
  rep_prompt_ts : PyFloat.float;
  rep_response_ts : PyFloat.float;
  rep_total_ts : PyFloat.float;
  rep_input_tokens : Z;
  rep_generated_tokens : Z;
  rep_load_time : PyFloat.float;
  rep_processing_time : PyFloat.float;
  rep_generation_time : PyFloat.float;
  rep_total_time : PyFloat.float
}.

(** [count / nanosec_to_sec(duration)]: the shape of the three rates. *)
Definition tokens_per_sec (count duration : Z) : result PyFloat.float :=
  sec <~ nanosec_to_sec duration ;;
  PyFloat.int_truediv_float count sec.

(** The values computed by [inference_stats] (lines 134-166), in the order
    the interpreter evaluates them. *)
Definition inference_report (model_response : OllamaResponse) : result StatsReport :=
  prompt_ts <~ tokens_per_sec (prompt_eval_count model_response)
                              (prompt_eval_duration model_response) ;;
  response_ts <~ tokens_per_sec (eval_count model_response)
                                (eval_duration model_response) ;;
  total_ts <~ tokens_per_sec
                (prompt_eval_count model_response + eval_count model_response)
                (prompt_eval_duration model_response + eval_duration model_response) ;;
  load_time <~ nanosec_to_sec (load_duration model_response) ;;
  processing_time <~ nanosec_to_sec (prompt_eval_duration model_response) ;;
  generation_time <~ nanosec_to_sec (eval_duration model_response) ;;
  total_time <~ nanosec_to_sec (total_duration model_response) ;;
  Ok {| rep_model := model model_response;
        rep_prompt_ts := prompt_ts;
        rep_response_ts := response_ts;
        rep_total_ts := total_ts;
        rep_input_tokens := prompt_eval_count model_response;
        rep_generated_tokens := eval_count model_response;
        rep_load_time := load_time;
        rep_processing_time := processing_time;
        rep_generation_time := generation_time;
        rep_total_time := total_time |}.

(* ===================================================================== *)
(** * Aggregation (pure part)                                             *)
(* ===================================================================== *)

(** Python's [sum] over a generator of [int]s: a left fold from 0. *)
Definition py_sum (xs : list Z) : Z := fold_left Z.add xs 0.

(** [str(n)] for a length. *)
Definition str_of_nat (n : nat) : string :=
  NilZero.string_of_uint (Nat.to_uint n).

(** The record [res] built by [average_stats] (lines 181-195) from a list
    whose first element is [first]; [now] is the value of
    [datetime.now()]. *)
Definition average_stats_res (now : datetime) (first : OllamaResponse)
    (responses : list OllamaResponse) : result OllamaResponse :=
  OllamaResponse_init
    (Some (model first))
    (Some now)
    {| role := "system";
       content := "Average stats across " +:+ str_of_nat (length responses) +:+ " runs" |}
    (Some true)
    (Some (py_sum (map total_duration responses)))
    (Some (py_sum (map load_duration responses)))
    (Some (py_sum (map prompt_eval_count responses)))
    (Some (py_sum (map prompt_eval_duration responses)))
    (Some (py_sum (map eval_count responses)))
    (Some (py_sum (map eval_duration responses))).

(* ===================================================================== *)
(** * Model selection (pure part)                                         *)
(* ===================================================================== *)

(** [x in l] on a Python list: linear search with [==]. *)
Definition py_in (x : string) (l : list string) : bool :=
  existsb (String.eqb x) l.

(** [set(test_models) - set(available_models)] (line 219). *)
Definition missing_models (test_models available_models : list string) : gset string :=
  list_to_set test_models ∖ list_to_set available_models.

(* ===================================================================== *)
(** * The world: standard output, backend, clock                          *)
(* ===================================================================== *)

(** One event per [print] of the program. *)
Inductive Output : Type :=
| OutChunk (content : option string)                     (* line 102 *)
| OutNoResponse (model_name : string)                    (* line 111 *)
| OutErrorBenchmarking (model_name : string) (e : exn)   (* line 117 *)
| OutStats (rep : StatsReport)                           (* lines 148-166 *)
| OutNoStats                                             (* line 177 *)
| OutAverageStats                                        (* line 196 *)
| OutWarningMissing (missing : gset string)              (* line 220 *)
| OutEvaluating (model_names : list string)              (* line 222 *)
| OutConfig (verbose : bool) (models prompts : list string) (* lines 272-274 *)
| OutBenchmarking (model_name prompt : string)           (* line 284 *)
| OutResponse (content : string).                        (* line 289 *)

(** [benchmarks: Dict[str, List[OllamaResponse]]]: a Python dict keeps the
    order of first insertion, and [d[k] = v] on a present key replaces the
    value in place. *)
Fixpoint dict_set {V : Type} (k : string) (v : V) (d : list (string * V))
  : list (string * V) :=
  match d with
  | [] => [(k, v)]
  | (k', v') :: d' =>
      if String.eqb k' k then (k', v) :: d' else (k', v') :: dict_set k v d'
  end.

(** The arguments parsed by argparse (lines 231-271). *)
Record Args : Type := {
  arg_verbose : bool;
  arg_models : list string;
  arg_prompts : list string
}.

Section Session.

(** The state of what is outside the program: the backend and the clock. *)
Context {B : Type}.

(** [ollama.chat(model=..., messages=...)]. *)
Variable ollama_chat : string -> list Message -> B -> result RawResponse * B.
(** [ollama.chat(model=..., messages=..., stream=True)]. *)
Variable ollama_chat_stream : string -> list Message -> B -> result Stream * B.
(** [[model.get("model") for model in ollama.list().get("models", [])]]. *)
Variable ollama_list : B -> result (list string) * B.
(** [datetime.now()]. *)
Variable datetime_now : B -> datetime * B.

Record World : Type := {
  backend : B;
  stdout : list Output
}.

(** Computations that read and change the world and may raise. *)
Definition Comp (A : Type) : Type := World -> result A * World.

Definition ret {A : Type} (a : A) : Comp A := fun w => (Ok a, w).

Definition raise {A : Type} (e : exn) : Comp A := fun w => (Raise e, w).

Definition bind {A C : Type} (c : Comp A) (k : A -> Comp C) : Comp C :=
  fun w =>
    match c w with
    | (Ok a, w') => k a w'
    | (Raise e, w') => (Raise e, w')
    end.

(** [try: c except Exception as e: handler(e)] *)
Definition try_except {A : Type} (c : Comp A) (handler : exn -> Comp A) : Comp A :=
  fun w =>
    match c w with
    | (Ok a, w') => (Ok a, w')
    | (Raise e, w') => handler e w'
    end.

Definition lift {A : Type} (r : result A) : Comp A := fun w => (r, w).

Definition print (o : Output) : Comp unit :=
  fun w => (Ok tt, {| backend := backend w; stdout := stdout w ++ [o] |}).

Definition call {A : Type} (f : B -> result A * B) : Comp A :=
  fun w =>
    let '(r, b) := f (backend w) in
    (r, {| backend := b; stdout := stdout w |}).

Definition now : Comp datetime :=
  fun w =>
    let '(t, b) := datetime_now (backend w) in
    (Ok t, {| backend := b; stdout := stdout w |}).

Notation "x <- c ;; k" := (bind c (fun x => k))
  (at level 60, c at next level, right associativity).
Notation "c ;;; k" := (bind c (fun _ => k))
  (at level 60, right associativity).

(** The [for chunk in stream] loop of [run_benchmark] (lines 101-103). *)
Fixpoint for_chunk (chunks : list RawResponse) (failure : option exn)
    (last_element : option RawResponse) : Comp (option RawResponse) :=
  match chunks with
  | [] =>
      match failure with
      | Some e => raise e
      | None => ret last_element
      end
  | chunk :: rest =>
      print (OutChunk (raw_content (raw_message chunk))) ;;;
      for_chunk rest failure (Some chunk)
  end.

(** The body of the [try] of [run_benchmark] (lines 95-114). *)
Definition run_benchmark_try (model_name : string) (messages : list Message)
    (verbose : bool) : Comp (option OllamaResponse) :=
  last_element <-
    (if verbose then
       stream <- call (ollama_chat_stream model_name messages) ;;
       for_chunk (stream_chunks stream) (stream_failure stream) None
     else
       response <- call (ollama_chat model_name messages) ;;
       ret (Some response)) ;;
  match last_element with
  | None =>
      print (OutNoResponse model_name) ;;;
      ret None
  | Some element =>
      response <- lift (from_chat_response element) ;;
      ret (Some response)
  end.

(** [run_benchmark] (lines 75-118). *)
Definition run_benchmark (model_name prompt : string) (verbose : bool)
  : Comp (option OllamaResponse) :=
  let messages := [ {| role := "user"; content := prompt |} ] in
  try_except
    (run_benchmark_try model_name messages verbose)
    (fun e =>
       print (OutErrorBenchmarking model_name e) ;;;
       ret None).

(** [inference_stats] (lines 126-166). *)
Definition inference_stats (model_response : OllamaResponse) : Comp unit :=
  rep <- lift (inference_report model_response) ;;
  print (OutStats rep).

(** [average_stats] (lines 169-197). *)
Definition average_stats (responses : list OllamaResponse) : Comp unit :=
  match responses with
  | [] => print OutNoStats
  | first :: _ =>
      t <- now ;;
      res <- lift (average_stats_res t first responses) ;;
      print OutAverageStats ;;;
      inference_stats res
  end.

(** [get_benchmark_models] (lines 200-223). *)
Definition get_benchmark_models (test_models : list string) : Comp (list string) :=
  available_models <- call ollama_list ;;
  match test_models with
  | [] => ret available_models
  | _ :: _ =>
      let model_names :=
        List.filter (fun model => py_in model available_models) test_models in
      (if (length model_names <? length test_models)%nat
       then print (OutWarningMissing (missing_models test_models available_models))
       else ret tt) ;;;
      print (OutEvaluating model_names) ;;;
      ret model_names
  end.

(** The inner loop of [main] (lines 282-290), from the current value of
    [responses]. *)
Fixpoint for_prompt (model_name : string) (verbose : bool) (prompts : list string)
    (responses : list OllamaResponse) : Comp (list OllamaResponse) :=
  match prompts with
  | [] => ret responses
  | prompt :: rest =>
      (if verbose then print (OutBenchmarking model_name prompt) else ret tt) ;;;
      r <- run_benchmark model_name prompt verbose ;;
      match r with
      | Some response =>
          (if verbose then
             print (OutResponse (content (message response))) ;;;
             inference_stats response
           else ret tt) ;;;
          for_prompt model_name verbose rest (responses ++ [response])
      | None => for_prompt model_name verbose rest responses
      end
  end.

(** The outer loop of [main] (lines 280-292). *)
Fixpoint for_model (verbose : bool) (prompts : list string) (model_names : list string)
    (benchmarks : list (string * list OllamaResponse))
  : Comp (list (string * list OllamaResponse)) :=
  match model_names with
  | [] => ret benchmarks
  | model_name :: rest =>
      responses <- for_prompt model_name verbose prompts [] ;;
      for_model verbose prompts rest (dict_set model_name responses benchmarks)
  end.

(** The last loop of [main] (lines 295-296). *)
Fixpoint for_average (items : list (string * list OllamaResponse)) : Comp unit :=
  match items with
  | [] => ret tt
  | (_, responses) :: rest =>
      average_stats responses ;;;
      for_average rest
  end.

(** [main] after argument parsing (lines 272-296). *)
Definition main (args : Args) : Comp unit :=
  print (OutConfig (arg_verbose args) (arg_models args) (arg_prompts args)) ;;;
  model_names <- get_benchmark_models (arg_models args) ;;
  benchmarks <- for_model (arg_verbose args) (arg_prompts args) model_names [] ;;
  for_average benchmarks.

End Session.

Arguments World B : clear implicits.
Arguments Comp B A : clear implicits.

(** The world after some more output. *)
Definition appended {B : Type} (w : World B) (out : list Output) : World B :=
  {| backend := backend w; stdout := stdout w ++ out |}.

(** The world after the banner of a verbose run (line 284). *)
Definition announced {B : Type} (verbose : bool) (model_name prompt : string)
    (w : World B) : World B :=
  if verbose then appended w [OutBenchmarking model_name prompt] else w.

(* ===================================================================== *)
(** * The formulas and sets of the specification                          *)
(* ===================================================================== *)

Module Spec.

(** [secondsOf(d) = d / 1e9], rounded to binary64. *)
Definition secondsOf (durationNanos : Z) : PyFloat.float :=
  SFdiv PyFloat.prec PyFloat.emax
    (PyFloat.of_Z_exact durationNanos) (PyFloat.of_Z_exact 1000000000).

(** [count / secondsOf(duration)]: the count as a binary64, divided in
    binary64. *)
Definition rate (count durationNanos : Z) : PyFloat.float :=
  SFdiv PyFloat.prec PyFloat.emax
    (binary_normalize PyFloat.prec PyFloat.emax count 0 false)
    (secondsOf durationNanos).

(** The arithmetic mean of two floats, [(x + y) / 2]. *)
Definition mean (x y : PyFloat.float) : PyFloat.float :=
  SFdiv PyFloat.prec PyFloat.emax
    (SFadd PyFloat.prec PyFloat.emax x y) (PyFloat.of_Z_exact 2).

(** The arithmetic sum of a field across records. *)
Fixpoint total (field : OllamaResponse -> Z) (records : list OllamaResponse) : Z :=
  match records with
  | [] => 0
  | r :: rest => field r + total field rest
  end.

(** The requested names that are available, in the order requested; the
    whole available list for an empty request. *)
Definition resolve (available requested : list string) : list string :=
  match requested with
  | [] => available
  | _ => filter (fun m => m ∈ available) requested
  end.

Definition present {A : Type} (v : option A) : bool :=
  match v with Some _ => true | None => false end.

(** Every attribute a record needs is present in the raw response. *)
Definition complete (raw : RawResponse) : bool :=
  present (raw_role (raw_message raw)) &&
  present (raw_content (raw_message raw)) &&
  present (raw_model raw) &&
  present (raw_done raw) &&
  present (raw_total_duration raw) &&
  present (raw_load_duration raw) &&
  present (raw_prompt_eval_count raw) &&
  present (raw_prompt_eval_duration raw) &&
  present (raw_eval_count raw) &&
  present (raw_eval_duration raw).

End Spec.

(** Magnitudes every conversion to a float of [inference_stats] accepts,
    sums of two fields included. *)
Definition in_float_range (n : Z) : Prop := Z.abs n < 2 ^ 1022.

(** The signed 64-bit range of the integers a backend reports. *)
Definition in_int64_range (n : Z) : Prop := - 2 ^ 63 <= n < 2 ^ 63.

Definition fields_satisfy (P : Z -> Prop) (r : OllamaResponse) : Prop :=
  P (total_duration r) /\ P (load_duration r) /\
  P (prompt_eval_count r) /\ P (prompt_eval_duration r) /\
  P (eval_count r) /\ P (eval_duration r).

(* ===================================================================== *)
(** * A fake backend and sample records                                   *)
(* ===================================================================== *)

Module Fake.

Definition sample_message : Message :=
  {| role := "assistant"; content := "ok" |}.

(** A record with the given counts and durations. *)
Definition record (p pd e ed : Z) : OllamaResponse :=
  {| model := "m1"; created_at := None; message := sample_message; done := true;
     total_duration := pd + ed; load_duration := 0;
     prompt_eval_count := p; prompt_eval_duration := pd;
     eval_count := e; eval_duration := ed |}.

(** The final response of the end-to-end example of the specification,
    with a chosen completion flag. *)
Definition raw (model_name : string) (is_done : bool) : RawResponse :=
  {| raw_model := Some model_name;
     raw_message := {| raw_role := Some "assistant"; raw_content := Some "ok" |};
     raw_done := Some is_done;
     raw_total_duration := Some 3000000000;
     raw_load_duration := Some 0;
     raw_prompt_eval_count := Some 10;
     raw_prompt_eval_duration := Some 1000000000;
     raw_eval_count := Some 20;
     raw_eval_duration := Some 2000000000 |}.

(** An intermediate chunk of a stream: content only. *)
Definition partial_chunk (model_name text : string) : RawResponse :=
  {| raw_model := Some model_name;
     raw_message := {| raw_role := Some "assistant"; raw_content := Some text |};
     raw_done := Some false;
     raw_total_duration := None;
     raw_load_duration := None;
     raw_prompt_eval_count := None;
     raw_prompt_eval_duration := None;
     raw_eval_count := None;
     raw_eval_duration := None |}.

Definition prompt_of (messages : list Message) : string :=
  match messages with
  | m :: _ => content m
  | [] => ""
  end.

(** The backend counts its calls; the prompt "bad" makes it fail, the
    prompt "partial" makes it answer with an unfinished response. *)
Definition chat (model_name : string) (messages : list Message) (calls : nat)
  : result RawResponse * nat :=
  if String.eqb (prompt_of messages) "bad"
  then (Raise (BackendError "ResponseError" "model not found"), S calls)
  else if String.eqb (prompt_of messages) "partial"
  then (Ok (raw model_name false), S calls)
  else (Ok (raw model_name true), S calls).

Definition chat_stream (model_name : string) (messages : list Message) (calls : nat)
  : result Stream * nat :=
  if String.eqb (prompt_of messages) "bad"
  then (Ok {| stream_chunks := [partial_chunk model_name "o"];
              stream_failure := Some (BackendError "ConnectionError" "reset") |},
        S calls)
  else (Ok {| stream_chunks := [partial_chunk model_name "o"; raw model_name true];
              stream_failure := None |},
        S calls).

Definition list_models (calls : nat) : result (list string) * nat :=
  (Ok ["a"; "b"], calls).

Definition clock (calls : nat) : datetime * nat := (Z.of_nat calls, calls).

Definition world0 : World nat := {| backend := 0%nat; stdout := [] |}.

End Fake.

(* ===================================================================== *)
(** * Further definitions for the properties of the whole program         *)
(* ===================================================================== *)

(** What the loop over a stream prints: the content of each chunk, in
    order (line 102). *)
Definition chunk_output (chunks : list RawResponse) : list Output :=
  map (fun chunk => OutChunk (raw_content (raw_message chunk))) chunks.

(** A condition on the six sums an aggregate record is built from. *)
Definition totals_satisfy (P : Z -> Prop) (responses : list OllamaResponse) : Prop :=
  P (Spec.total total_duration responses) /\ P (Spec.total load_duration responses) /\
  P (Spec.total prompt_eval_count responses) /\
  P (Spec.total prompt_eval_duration responses) /\
  P (Spec.total eval_count responses) /\ P (Spec.total eval_duration responses).

Module Sample.

(** A backend that refuses every request. *)
Definition chat_down (model_name : string) (messages : list Message) (calls : nat)
  : result RawResponse * nat :=
  (Raise (BackendError "ConnectionError" "connection refused"), S calls).

(** A backend that answers every request with a complete final response. *)
Definition chat_up (model_name : string) (messages : list Message) (calls : nat)
  : result RawResponse * nat :=
  (Ok (Fake.raw model_name true), S calls).

(** A backend that cannot list its models. *)
Definition list_down (calls : nat) : result (list string) * nat :=
  (Raise (BackendError "ConnectionError" "connection refused"), calls).

(** A final response whose prompt was served from a cache: no time was
    spent on it. *)
Definition raw_cached (model_name : string) : RawResponse :=
  {| raw_model := Some model_name;
     raw_message := {| raw_role := Some "assistant"; raw_content := Some "ok" |};
     raw_done := Some true;
     raw_total_duration := Some 5;
     raw_load_duration := Some 0;
     raw_prompt_eval_count := Some 10;
     raw_prompt_eval_duration := Some 0;
     raw_eval_count := Some 20;
     raw_eval_duration := Some 5 |}.

(** A stream of one chunk, the cached final response. *)
Definition chat_stream_cached (model_name : string) (messages : list Message)
    (calls : nat) : result Stream * nat :=
  (Ok {| stream_chunks := [raw_cached model_name]; stream_failure := None |}, S calls).

Definition quiet_args : Args :=
  {| arg_verbose := false; arg_models := []; arg_prompts := ["one"; "two"] |}.


End Sample.

(* ===================================================================== *)
(** * The session as the specification describes it                       *)
(* ===================================================================== *)


Section SessionSpec.

Context {B : Type}.
Variable ollama_chat : string -> list Message -> B -> result RawResponse * B.
Variable ollama_chat_stream : string -> list Message -> B -> result Stream * B.




End SessionSpec.


(* ===================================================================== *)
(** * Facts on binary64 rounding                                        *)
(* ===================================================================== *)

(** The number of binary digits of a mantissa, the right shifts of the
    rounding procedure, and the two results the program relies on: rounding
    ([binary_round_aux_finite]) and dividing ([SFdiv_finite]) in the normal
    and subnormal range give finite, non-zero floats. *)

Lemma digits2_pos_size (p : positive) : digits2_pos p = Pos.size p.
Proof. induction p; simpl; congruence. Qed.

Lemma Zdigits2_bounds (m : Z) :
  0 < m -> 0 < Zdigits2 m /\ 2 ^ (Zdigits2 m - 1) <= m < 2 ^ Zdigits2 m.
Proof.
  destruct m as [|p|p]; try lia. intros _. simpl. rewrite digits2_pos_size.
  split; [lia|].
  pose proof (Pos.size_gt p) as Hgt. pose proof (Pos.size_le p) as Hle.
  split.
  - assert (H2 : 2 ^ Z.pos (Pos.size p) = 2 * 2 ^ (Z.pos (Pos.size p) - 1)).
    { rewrite <- Z.pow_succ_r by lia. f_equal. lia. }
    assert (Hz : 2 ^ Z.pos (Pos.size p) <= Z.pos p~0).
    { rewrite <- Pos2Z.inj_pow. lia. }
    lia.
  - change 2 with (Z.pos 2). rewrite <- Pos2Z.inj_pow. lia.
Qed.

Lemma Zdigits2_le (m k : Z) : 0 < m -> m < 2 ^ k -> Zdigits2 m <= k.
Proof.
  intros Hm Hk. destruct (Zdigits2_bounds m Hm) as (Hd & Hlo & _).
  destruct (Z_lt_le_dec k (Zdigits2 m)) as [Hlt|]; [|lia].
  assert (0 <= k). { destruct (Z_lt_le_dec k 0); [|lia]. rewrite Z.pow_neg_r in Hk; lia. }
  assert (2 ^ k <= 2 ^ (Zdigits2 m - 1)) by (apply Z.pow_le_mono_r; lia). lia.
Qed.

Lemma Zdigits2_ge (m k : Z) : 0 <= k -> 2 ^ k <= m -> k < Zdigits2 m.
Proof.
  intros Hk Hm. assert (0 < m) by (pose proof (Z.pow_pos_nonneg 2 k); lia).
  destruct (Zdigits2_bounds m H) as (Hd & _ & Hhi).
  destruct (Z_lt_le_dec k (Zdigits2 m)) as [|Hle]; [lia|].
  assert (2 ^ Zdigits2 m <= 2 ^ k) by (apply Z.pow_le_mono_r; lia). lia.
Qed.

Lemma shr_1_m (mrs : shr_record) : 0 <= shr_m mrs -> shr_m (shr_1 mrs) = shr_m mrs / 2.
Proof.
  destruct mrs as [m r s]; simpl. intros Hm.
  destruct m as [|p|p]; try lia; [reflexivity|].
  destruct p; simpl.
  - rewrite Pos2Z.inj_xI. apply Z.div_unique with (r := 1); lia.
  - rewrite Pos2Z.inj_xO. apply Z.div_unique with (r := 0); lia.
  - reflexivity.
Qed.

Lemma iter_pos_iter {A : Type} (f : A -> A) (n : positive) (x : A) :
  SpecFloat.iter_pos f n x = @Pos.iter A f x n.
Proof.
  revert x. induction n; intros x; simpl; rewrite ?IHn; try reflexivity.
  rewrite !Pos.iter_swap. reflexivity.
Qed.

Lemma iter_shr_1_m (n : positive) (mrs : shr_record) :
  0 <= shr_m mrs -> shr_m (SpecFloat.iter_pos shr_1 n mrs) = shr_m mrs / 2 ^ Z.pos n.
Proof.
  rewrite iter_pos_iter. revert mrs.
  induction n using Pos.peano_ind; intros mrs Hm.
  - simpl. rewrite shr_1_m by assumption. reflexivity.
  - rewrite Pos.iter_succ. rewrite shr_1_m.
    + rewrite IHn by assumption. rewrite Pos2Z.inj_succ, Z.pow_succ_r by lia.
      rewrite Z.div_div by (try apply Z.pow_pos_nonneg; lia). f_equal. lia.
    + rewrite IHn by assumption. apply Z.div_pos; [lia|]. apply Z.pow_pos_nonneg; lia.
Qed.

Lemma Zdigits2_shift (m n : Z) :
  0 < m -> 0 <= n < Zdigits2 m ->
  0 < m / 2 ^ n /\ Zdigits2 (m / 2 ^ n) = Zdigits2 m - n.
Proof.
  intros Hm Hn. destruct (Zdigits2_bounds m Hm) as (_ & Hlo & Hhi).
  assert (Hp : 0 < 2 ^ n) by (apply Z.pow_pos_nonneg; lia).
  assert (Hge : 2 ^ (Zdigits2 m - 1 - n) <= m / 2 ^ n).
  { apply Z.div_le_lower_bound; [lia|]. rewrite <- Z.pow_add_r by lia.
    replace (n + (Zdigits2 m - 1 - n)) with (Zdigits2 m - 1) by lia. lia. }
  assert (Hlt : m / 2 ^ n < 2 ^ (Zdigits2 m - n)).
  { apply Z.div_lt_upper_bound; [lia|]. rewrite <- Z.pow_add_r by lia.
    replace (n + (Zdigits2 m - n)) with (Zdigits2 m) by lia. lia. }
  assert (Hq : 0 < m / 2 ^ n).
  { pose proof (Z.pow_pos_nonneg 2 (Zdigits2 m - 1 - n)). lia. }
  split; [assumption|].
  pose proof (Zdigits2_le _ _ Hq Hlt).
  pose proof (Zdigits2_ge (m / 2 ^ n) (Zdigits2 m - 1 - n)). lia.
Qed.

Lemma Zdigits2_succ (m : Z) :
  0 < m -> Zdigits2 m <= Zdigits2 (m + 1) <= Zdigits2 m + 1.
Proof.
  intros Hm. destruct (Zdigits2_bounds m Hm) as (Hd & Hlo & Hhi).
  split.
  - pose proof (Zdigits2_ge (m + 1) (Zdigits2 m - 1)). lia.
  - apply Zdigits2_le; [lia|]. rewrite Z.pow_add_r by lia. lia.
Qed.

Lemma round_nearest_even_bounds (m : Z) (l : location) :
  m <= round_nearest_even m l <= m + 1.
Proof.
  destruct l as [|[]]; simpl; try lia. destruct (Z.even m); lia.
Qed.

Lemma fexp_binary64 (e : Z) :
  fexp PyFloat.prec PyFloat.emax e = Z.max (e - 53) (-1074).
Proof. reflexivity. Qed.

Lemma shr_fexp_spec (m e : Z) (l : location) :
  0 <= m ->
  let n := Z.max 0 (fexp PyFloat.prec PyFloat.emax (Zdigits2 m + e) - e) in
  shr_m (fst (shr_fexp PyFloat.prec PyFloat.emax m e l)) = m / 2 ^ n /\
  snd (shr_fexp PyFloat.prec PyFloat.emax m e l) = e + n.
Proof.
  intros Hm n. subst n. unfold shr_fexp, shr.
  assert (Hr : shr_m (shr_record_of_loc m l) = m) by (destruct l as [|[]]; reflexivity).
  destruct (fexp PyFloat.prec PyFloat.emax (Zdigits2 m + e) - e) as [|p|p] eqn:E; simpl fst; simpl snd.
  - rewrite Hr. change (Z.max 0 0) with 0. rewrite Z.div_1_r. lia.
  - rewrite iter_shr_1_m by lia. rewrite Hr. rewrite Z.max_r by lia. split; reflexivity.
  - rewrite Hr. rewrite Z.max_l by lia. rewrite Z.div_1_r. lia.
Qed.

(** Rounding a positive mantissa whose magnitude is in the normal or
    subnormal range gives a finite, non-zero float of about the same
    magnitude. *)
Lemma binary_round_aux_finite (s : bool) (m e : Z) (l : location) :
  0 < m -> -1074 < Zdigits2 m + e <= 1023 -> e <= 971 ->
  exists m' e',
    binary_round_aux PyFloat.prec PyFloat.emax s m e l = S754_finite s m' e' /\
    Zdigits2 m + e <= Zdigits2 (Z.pos m') + e' <= Zdigits2 m + e + 1.
Proof.
  intros Hm Hd He. unfold binary_round_aux.
  destruct (shr_fexp_spec m e l ltac:(lia)) as [Hm1 He1].
  destruct (shr_fexp PyFloat.prec PyFloat.emax m e l) as [mrs1 e1].
  simpl fst in Hm1; simpl snd in He1.
  rewrite fexp_binary64 in Hm1, He1.
  set (n1 := Z.max 0 (Z.max (Zdigits2 m + e - 53) (-1074) - e)) in *.
  pose proof (Zdigits2_bounds m Hm) as (Hdm & _).
  destruct (Zdigits2_shift m n1 Hm ltac:(lia)) as [Hq1 Hd1].
  rewrite <- Hm1 in Hq1, Hd1.
  pose proof (round_nearest_even_bounds (shr_m mrs1) (loc_of_shr_record mrs1)) as Hr.
  set (m2 := round_nearest_even (shr_m mrs1) (loc_of_shr_record mrs1)) in *.
  assert (Hd2 : Zdigits2 (shr_m mrs1) <= Zdigits2 m2 <= Zdigits2 (shr_m mrs1) + 1).
  { pose proof (Zdigits2_succ (shr_m mrs1) Hq1).
    assert (Hc : m2 = shr_m mrs1 \/ m2 = shr_m mrs1 + 1) by lia.
    destruct Hc as [-> | ->]; lia. }
  destruct (shr_fexp_spec m2 e1 loc_Exact ltac:(lia)) as [Hm3 He3].
  destruct (shr_fexp PyFloat.prec PyFloat.emax m2 e1 loc_Exact) as [mrs3 e3].
  simpl fst in Hm3; simpl snd in He3.
  rewrite fexp_binary64 in Hm3, He3.
  set (n2 := Z.max 0 (Z.max (Zdigits2 m2 + e1 - 53) (-1074) - e1)) in *.
  destruct (Zdigits2_shift m2 n2 ltac:(lia) ltac:(lia)) as [Hq3 Hd3].
  rewrite <- Hm3 in Hq3, Hd3.
  destruct (shr_m mrs3) as [|m'|m'] eqn:E3; try lia.
  assert (Hle : (e3 <=? PyFloat.emax - PyFloat.prec) = true).
  { apply Z.leb_le. change (PyFloat.emax - PyFloat.prec) with 971. lia. }
  rewrite Hle. exists m', e3. split; [reflexivity|]. lia.
Qed.

Lemma Zdigits2_mul_pow2 (m s : Z) :
  0 < m -> 0 <= s -> Zdigits2 (m * 2 ^ s) = Zdigits2 m + s.
Proof.
  intros Hm Hs. destruct (Zdigits2_bounds m Hm) as (Hd & Hlo & Hhi).
  assert (Hp : 0 < 2 ^ s) by (apply Z.pow_pos_nonneg; lia).
  assert (H1 : 2 ^ (Zdigits2 m - 1 + s) <= m * 2 ^ s).
  { rewrite Z.pow_add_r by lia. apply Z.mul_le_mono_nonneg_r; lia. }
  assert (H2 : m * 2 ^ s < 2 ^ (Zdigits2 m + s)).
  { rewrite Z.pow_add_r by lia. apply Z.mul_lt_mono_pos_r; lia. }
  pose proof (Zdigits2_le (m * 2 ^ s) (Zdigits2 m + s) ltac:(lia) H2).
  pose proof (Zdigits2_ge (m * 2 ^ s) (Zdigits2 m - 1 + s) ltac:(lia) H1).
  lia.
Qed.

Lemma Zdigits2_div (a b : Z) :
  0 < a -> 0 < b -> Zdigits2 b < Zdigits2 a ->
  0 < a / b /\ Zdigits2 a - Zdigits2 b <= Zdigits2 (a / b) <= Zdigits2 a - Zdigits2 b + 1.
Proof.
  intros Ha Hb Hab.
  destruct (Zdigits2_bounds a Ha) as (Hda & Halo & Hahi).
  destruct (Zdigits2_bounds b Hb) as (Hdb & Hblo & Hbhi).
  set (da := Zdigits2 a) in *. set (db := Zdigits2 b) in *.
  assert (Hlo : 2 ^ (da - 1 - db) <= a / b).
  { apply Z.div_le_lower_bound; [lia|].
    assert (b * 2 ^ (da - 1 - db) <= 2 ^ db * 2 ^ (da - 1 - db)).
    { apply Z.mul_le_mono_nonneg_r; [apply Z.pow_nonneg|]; lia. }
    rewrite <- Z.pow_add_r in H by lia.
    replace (db + (da - 1 - db)) with (da - 1) in H by lia. lia. }
  assert (Hhi : a / b < 2 ^ (da - db + 1)).
  { apply Z.div_lt_upper_bound; [lia|].
    assert (2 ^ (db - 1) * 2 ^ (da - db + 1) <= b * 2 ^ (da - db + 1)).
    { apply Z.mul_le_mono_nonneg_r; [apply Z.pow_nonneg|]; lia. }
    rewrite <- Z.pow_add_r in H by lia.
    replace (db - 1 + (da - db + 1)) with da in H by lia. lia. }
  assert (Hq : 0 < a / b).
  { pose proof (Z.pow_pos_nonneg 2 (da - 1 - db)). lia. }
  split; [assumption|].
  pose proof (Zdigits2_le (a / b) (da - db + 1) Hq Hhi).
  pose proof (Zdigits2_ge (a / b) (da - 1 - db) ltac:(lia) Hlo).
  lia.
Qed.

Lemma SFdiv_core_binary_spec (m1 e1 m2 e2 : Z) :
  0 < m1 -> 0 < m2 ->
  -1074 < Zdigits2 m1 + e1 - (Zdigits2 m2 + e2) ->
  exists q e' l,
    SFdiv_core_binary PyFloat.prec PyFloat.emax m1 e1 m2 e2 = (q, e', l) /\
    0 < q /\
    Zdigits2 m1 + e1 - (Zdigits2 m2 + e2) <= Zdigits2 q + e'
      <= Zdigits2 m1 + e1 - (Zdigits2 m2 + e2) + 1 /\
    e' <= Z.max (Zdigits2 m1 + e1 - (Zdigits2 m2 + e2) - 53) (-1074).
Proof.
  intros H1 H2 HD. unfold SFdiv_core_binary. rewrite fexp_binary64.
  set (D := Zdigits2 m1 + e1 - (Zdigits2 m2 + e2)) in *.
  set (e' := Z.min (Z.max (D - 53) (-1074)) (e1 - e2)).
  set (s := e1 - e2 - e').
  assert (Hs : 0 <= s) by lia.
  set (m' := match s with Z.pos _ => Z.shiftl m1 s | 0 => m1 | Z.neg _ => 0 end).
  assert (Hm' : m' = m1 * 2 ^ s).
  { subst m'. destruct s as [|p|p] eqn:Es; try lia.
    apply Z.shiftl_mul_pow2. lia. }
  assert (Hdm' : Zdigits2 m' = Zdigits2 m1 + s).
  { rewrite Hm'. apply Zdigits2_mul_pow2; lia. }
  assert (Hm'pos : 0 < m').
  { rewrite Hm'. apply Z.mul_pos_pos; [lia|]. apply Z.pow_pos_nonneg; lia. }
  assert (HDe : D = Zdigits2 m1 + e1 - (Zdigits2 m2 + e2)) by reflexivity.
  assert (He'e : e' = Z.min (Z.max (D - 53) (-1074)) (e1 - e2)) by reflexivity.
  assert (Hse : s = e1 - e2 - e') by reflexivity.
  clearbody m' s e' D.
  assert (Hlt : Zdigits2 m2 < Zdigits2 m'). { clear Hm'. lia. }
  destruct (Zdigits2_div m' m2 Hm'pos H2 Hlt) as [Hq Hdq].
  unfold Z.div in Hq, Hdq.
  destruct (Z.div_eucl m' m2) as [q r].
  exists q, e', (new_location m2 r). split; [reflexivity|].
  split; [assumption|]. split; lia.
Qed.

(** Division of two finite floats whose magnitudes are not too far apart is
    a finite, non-zero float. *)
Lemma SFdiv_finite (sx sy : bool) (mx my : positive) (ex ey : Z) :
  -1074 < Zdigits2 (Z.pos mx) + ex - (Zdigits2 (Z.pos my) + ey) <= 1021 ->
  exists m e,
    SFdiv PyFloat.prec PyFloat.emax (S754_finite sx mx ex) (S754_finite sy my ey)
      = S754_finite (xorb sx sy) m e /\
    Zdigits2 (Z.pos mx) + ex - (Zdigits2 (Z.pos my) + ey) <= Zdigits2 (Z.pos m) + e
      <= Zdigits2 (Z.pos mx) + ex - (Zdigits2 (Z.pos my) + ey) + 2.
Proof.
  intros HD. unfold SFdiv.
  destruct (SFdiv_core_binary_spec (Z.pos mx) ex (Z.pos my) ey) as (q & e' & l & -> & Hq & Hdq & He');
    try lia.
  destruct (binary_round_aux_finite (xorb sx sy) q e' l) as (m & e & -> & Hme); try lia.
  exists m, e. split; [reflexivity|]. lia.
Qed.

Lemma digits2_pos_iter_xO (m d : positive) :
  Z.pos (digits2_pos (Pos.iter xO m d)) = Z.pos (digits2_pos m) + Z.pos d.
Proof.
  induction d using Pos.peano_ind.
  - simpl. lia.
  - rewrite Pos.iter_succ. simpl. lia.
Qed.

Lemma binary_round_finite (s : bool) (m : positive) (e : Z) :
  -1074 < Zdigits2 (Z.pos m) + e <= 1023 -> e <= 971 ->
  exists m' e',
    binary_round PyFloat.prec PyFloat.emax s m e = S754_finite s m' e' /\
    Zdigits2 (Z.pos m) + e <= Zdigits2 (Z.pos m') + e' <= Zdigits2 (Z.pos m) + e + 1.
Proof.
  intros Hd He. unfold binary_round, shl_align.
  destruct (fexp PyFloat.prec PyFloat.emax (Z.pos (digits2_pos m) + e) - e) as [|d|d] eqn:E.
  - apply binary_round_aux_finite; simpl in *; lia.
  - apply binary_round_aux_finite; simpl in *; lia.
  - rewrite fexp_binary64 in E.
    destruct (binary_round_aux_finite s (Z.pos (Pos.iter xO m d))
                (Z.max (Z.pos (digits2_pos m) + e - 53) (-1074)) loc_Exact)
      as (m' & e' & Hr & Hb).
    + lia.
    + simpl Zdigits2 in *. rewrite digits2_pos_iter_xO. lia.
    + simpl Zdigits2 in *. lia.
    + exists m', e'. split; [exact Hr|].
      simpl Zdigits2 in *. rewrite digits2_pos_iter_xO in Hb. lia.
Qed.

(* ===================================================================== *)
(** * The float operations of the program                               *)
(* ===================================================================== *)

Lemma Zdigits2_abs (n : Z) : Zdigits2 (Z.abs n) = Zdigits2 n.
Proof. destruct n; reflexivity. Qed.

Lemma Zdigits2_range (n k : Z) :
  n <> 0 -> Z.abs n < 2 ^ k -> 0 < Zdigits2 n <= k.
Proof.
  intros Hn Hk. rewrite <- Zdigits2_abs.
  pose proof (Zdigits2_bounds (Z.abs n) ltac:(lia)) as (Hd & _).
  pose proof (Zdigits2_le (Z.abs n) k ltac:(lia) Hk). lia.
Qed.

Lemma of_int_zero : PyFloat.of_int 0 = Ok (S754_zero false).
Proof. reflexivity. Qed.

Lemma of_int_finite (n : Z) :
  n <> 0 -> Z.abs n < 2 ^ 1023 ->
  exists m e,
    binary_normalize PyFloat.prec PyFloat.emax n 0 false = S754_finite (n <? 0) m e /\
    Zdigits2 n <= Zdigits2 (Z.pos m) + e <= Zdigits2 n + 1.
Proof.
  intros Hn Hr. pose proof (Zdigits2_range n 1023 Hn Hr) as Hd.
  destruct n as [|p|p]; [lia| |]; unfold binary_normalize.
  - destruct (binary_round_finite false p 0) as (m & e & Hb & Hde); [lia|lia|].
    exists m, e. split; [exact Hb|lia].
  - destruct (binary_round_finite true p 0) as (m & e & Hb & Hde);
      [change (Zdigits2 (Z.pos p)) with (Zdigits2 (Z.neg p)); lia|lia|].
    exists m, e. split; [exact Hb|].
    change (Zdigits2 (Z.neg p)) with (Zdigits2 (Z.pos p)). lia.
Qed.

Lemma of_int_in_range (n : Z) :
  Z.abs n < 2 ^ 1023 ->
  PyFloat.of_int n = Ok (binary_normalize PyFloat.prec PyFloat.emax n 0 false).
Proof.
  intros Hr. unfold PyFloat.of_int.
  destruct (Z.eq_dec n 0) as [->|Hn]; [reflexivity|].
  destruct (of_int_finite n Hn Hr) as (m & e & -> & _). reflexivity.
Qed.

Lemma of_Z_exact_finite (n : Z) :
  n <> 0 -> PyFloat.of_Z_exact n = S754_finite (n <? 0) (Z.to_pos (Z.abs n)) 0.
Proof. destruct n; [lia| |]; reflexivity. Qed.

Lemma secondsOf_finite (n : Z) :
  n <> 0 -> Z.abs n < 2 ^ 1023 ->
  exists m e,
    Spec.secondsOf n = S754_finite (n <? 0) m e /\
    Zdigits2 n - 30 <= Zdigits2 (Z.pos m) + e <= Zdigits2 n - 28.
Proof.
  intros Hn Hr. pose proof (Zdigits2_range n 1023 Hn Hr) as Hd.
  unfold Spec.secondsOf. rewrite (of_Z_exact_finite n Hn).
  change (PyFloat.of_Z_exact 1000000000) with (S754_finite false 1000000000 0).
  assert (Hp : Z.pos (Z.to_pos (Z.abs n)) = Z.abs n) by (apply Z2Pos.id; lia).
  destruct (SFdiv_finite (n <? 0) false (Z.to_pos (Z.abs n)) 1000000000 0 0)
    as (m & e & Hq & Hb).
  - rewrite Hp, Zdigits2_abs. change (Zdigits2 1000000000) with 30. lia.
  - rewrite Hp, Zdigits2_abs in Hb. change (Zdigits2 1000000000) with 30 in Hb.
    exists m, e. rewrite Hq, xorb_false_r. split; [reflexivity|lia].
Qed.

Lemma nanosec_to_sec_in_range (n : Z) :
  Z.abs n < 2 ^ 1023 -> nanosec_to_sec n = Ok (Spec.secondsOf n).
Proof.
  intros Hr. unfold nanosec_to_sec, PyFloat.int_truediv.
  change (1000000000 =? 0) with false. cbv iota.
  destruct (Z.eqb_spec n 0) as [->|Hn]; [reflexivity|].
  fold (Spec.secondsOf n).
  destruct (secondsOf_finite n Hn Hr) as (m & e & -> & _). reflexivity.
Qed.

Lemma nanosec_to_sec_zero : nanosec_to_sec 0 = Ok (S754_zero false).
Proof. reflexivity. Qed.

Lemma tokens_per_sec_in_range (count duration : Z) :
  Z.abs count < 2 ^ 1023 -> duration <> 0 -> Z.abs duration < 2 ^ 1023 ->
  tokens_per_sec count duration = Ok (Spec.rate count duration).
Proof.
  intros Hc Hd Hr. unfold tokens_per_sec.
  rewrite (nanosec_to_sec_in_range duration Hr). simpl rbind.
  unfold PyFloat.int_truediv_float. rewrite (of_int_in_range count Hc). simpl rbind.
  unfold PyFloat.float_truediv, Spec.rate.
  destruct (secondsOf_finite duration Hd Hr) as (m & e & -> & _). reflexivity.
Qed.

Lemma tokens_per_sec_zero_duration (count : Z) :
  exists e,
    tokens_per_sec count 0 = Raise e /\
    (e = ZeroDivisionError \/ e = OverflowError) /\
    (Z.abs count < 2 ^ 1023 -> e = ZeroDivisionError).
Proof.
  unfold tokens_per_sec. rewrite nanosec_to_sec_zero. simpl rbind.
  unfold PyFloat.int_truediv_float, PyFloat.of_int.
  destruct (PyFloat.is_infinity (binary_normalize PyFloat.prec PyFloat.emax count 0 false)) eqn:E.
  - exists OverflowError. split; [reflexivity|]. split; [now right|].
    intros Hc. pose proof (of_int_in_range count Hc) as Ho.
    unfold PyFloat.of_int in Ho. rewrite E in Ho. discriminate.
  - exists ZeroDivisionError. split; [reflexivity|]. split; [now left|reflexivity].
Qed.

(** A rate whose count and duration are below [2^65] is finite. *)
Lemma rate_finite (count duration : Z) :
  Z.abs count < 2 ^ 65 -> duration <> 0 -> Z.abs duration < 2 ^ 65 ->
  PyFloat.is_finite (Spec.rate count duration) = true.
Proof.
  intros Hc Hd Hr. unfold Spec.rate.
  assert (H64 : (2 : Z) ^ 65 < 2 ^ 1023) by (apply Z.pow_lt_mono_r; lia).
  destruct (secondsOf_finite duration Hd ltac:(lia)) as (ms & es & -> & Hs).
  pose proof (Zdigits2_range duration 65 Hd Hr) as Hdd.
  destruct (Z.eq_dec count 0) as [->|Hn]; [reflexivity|].
  destruct (of_int_finite count Hn ltac:(lia)) as (mc & ec & -> & Hcb).
  pose proof (Zdigits2_range count 65 Hn Hc) as Hdc.
  destruct (SFdiv_finite (count <? 0) (duration <? 0) mc ms ec es) as (m & e & -> & _);
    [lia|reflexivity].
Qed.

(* ===================================================================== *)
(** * Throughput: zero durations, rates, combined rate                  *)
(* ===================================================================== *)

Lemma pow2_1023 : (2 : Z) ^ 1023 = 2 * 2 ^ 1022.
Proof. reflexivity. Qed.

Lemma in_float_range_lt (n : Z) : in_float_range n -> Z.abs n < 2 ^ 1023.
Proof. unfold in_float_range. rewrite pow2_1023. lia. Qed.

Lemma in_float_range_add (a b : Z) :
  in_float_range a -> in_float_range b -> Z.abs (a + b) < 2 ^ 1023.
Proof. unfold in_float_range. rewrite pow2_1023. lia. Qed.

Lemma in_int64_range_lt (n : Z) : in_int64_range n -> Z.abs n < 2 ^ 65.
Proof. unfold in_int64_range. change (2 ^ 65) with (4 * 2 ^ 63). lia. Qed.

Lemma in_int64_range_add (a b : Z) :
  in_int64_range a -> in_int64_range b -> Z.abs (a + b) < 2 ^ 65.
Proof. unfold in_int64_range. change (2 ^ 65) with (4 * 2 ^ 63). lia. Qed.

Lemma tokens_per_sec_raises (count duration : Z) (e : exn) :
  tokens_per_sec count duration = Raise e ->
  e = ZeroDivisionError \/ e = OverflowError.
Proof.
  unfold tokens_per_sec, nanosec_to_sec, PyFloat.int_truediv,
    PyFloat.int_truediv_float, PyFloat.of_int, PyFloat.float_truediv.
  change (1000000000 =? 0) with false. cbv iota.
  destruct (duration =? 0); simpl rbind.
  - destruct (PyFloat.is_infinity _); simpl; intros [= <-]; auto.
  - destruct (PyFloat.is_infinity (SFdiv _ _ _ _)); simpl; [intros [= <-]; auto|].
    destruct (PyFloat.is_infinity (binary_normalize _ _ _ _ _)); simpl;
      [intros [= <-]; auto|].
    destruct (PyFloat.is_zero _); [intros [= <-]; auto|discriminate].
Qed.

(** The report of a record whose fields are in the range of the float
    conversions, with non-zero divisors. *)
Lemma inference_report_in_range (r : OllamaResponse) :
  fields_satisfy in_float_range r ->
  prompt_eval_duration r <> 0 -> eval_duration r <> 0 ->
  prompt_eval_duration r + eval_duration r <> 0 ->
  inference_report r =
    Ok {| rep_model := model r;
          rep_prompt_ts := Spec.rate (prompt_eval_count r) (prompt_eval_duration r);
          rep_response_ts := Spec.rate (eval_count r) (eval_duration r);
          rep_total_ts := Spec.rate (prompt_eval_count r + eval_count r)
                            (prompt_eval_duration r + eval_duration r);
          rep_input_tokens := prompt_eval_count r;
          rep_generated_tokens := eval_count r;
          rep_load_time := Spec.secondsOf (load_duration r);
          rep_processing_time := Spec.secondsOf (prompt_eval_duration r);
          rep_generation_time := Spec.secondsOf (eval_duration r);
          rep_total_time := Spec.secondsOf (total_duration r) |}.
Proof.
  intros (Htd & Hld & Hpc & Hpd & Hec & Hed) Hp He Hs. unfold inference_report.
  rewrite (tokens_per_sec_in_range _ _ (in_float_range_lt _ Hpc) Hp (in_float_range_lt _ Hpd)).
  rewrite (tokens_per_sec_in_range _ _ (in_float_range_lt _ Hec) He (in_float_range_lt _ Hed)).
  rewrite (tokens_per_sec_in_range _ _ (in_float_range_add _ _ Hpc Hec) Hs
             (in_float_range_add _ _ Hpd Hed)).
  rewrite !nanosec_to_sec_in_range by (apply in_float_range_lt; assumption).
  reflexivity.
Qed.

(** What [inference_stats] does to the world, from its report. *)
Lemma inference_stats_run {B : Type} (r : OllamaResponse) (w : World B) :
  inference_stats r w =
    match inference_report r with
    | Ok rep => (Ok tt, {| backend := backend w; stdout := stdout w ++ [OutStats rep] |})
    | Raise e => (Raise e, w)
    end.
Proof.
  unfold inference_stats, bind, lift, print. destruct (inference_report r); reflexivity.
Qed.

Lemma inference_report_zero_duration (r : OllamaResponse) :
  prompt_eval_duration r = 0 \/ eval_duration r = 0 ->
  exists e,
    inference_report r = Raise e /\
    (e = ZeroDivisionError \/ e = OverflowError) /\
    (fields_satisfy in_float_range r -> e = ZeroDivisionError).
Proof.
  intros Hz. unfold inference_report.
  destruct (Z.eq_dec (prompt_eval_duration r) 0) as [Hp|Hp].
  - rewrite Hp.
    destruct (tokens_per_sec_zero_duration (prompt_eval_count r)) as (e & -> & He & Hr).
    exists e. split; [reflexivity|]. split; [exact He|].
    intros (_ & _ & Hpc & _). apply Hr, in_float_range_lt, Hpc.
  - destruct Hz as [Hz|Hz]; [contradiction|]. rewrite Hz.
    destruct (tokens_per_sec_zero_duration (eval_count r)) as (e & He0 & He & Hr).
    destruct (tokens_per_sec (prompt_eval_count r) (prompt_eval_duration r)) as [x|e1] eqn:E1.
    + simpl rbind. rewrite He0. exists e. split; [reflexivity|]. split; [exact He|].
      intros (_ & _ & _ & _ & Hec & _). apply Hr, in_float_range_lt, Hec.
    + exists e1. split; [reflexivity|]. split; [eapply tokens_per_sec_raises; eassumption|].
      intros (_ & _ & Hpc & Hpd & _).
      rewrite (tokens_per_sec_in_range _ _ (in_float_range_lt _ Hpc) Hp
                 (in_float_range_lt _ Hpd)) in E1. discriminate.
Qed.


(** C1 (as amended).  For every metrics record whose prompt_eval_duration
    or eval_duration is zero, [inference_stats] fails before it prints
    anything: it raises Python's ZeroDivisionError (OverflowError when a
    count or duration is beyond the range of a float; never when all fields
    are in that range).  The world is unchanged, so no rate, and no infinity
    or NaN, is returned or printed.  The program has no UndefinedRate
    error. *)
Theorem inference_stats_zero_duration_raises {B : Type} (r : OllamaResponse) (w : World B) :
  prompt_eval_duration r = 0 \/ eval_duration r = 0 ->
  exists e,
    inference_stats r w = (Raise e, w) /\
    (e = ZeroDivisionError \/ e = OverflowError) /\
    (fields_satisfy in_float_range r -> e = ZeroDivisionError).
Proof.
  intros Hz. destruct (inference_report_zero_duration r Hz) as (e & Hr & He).
  exists e. split; [|exact He]. rewrite inference_stats_run, Hr. reflexivity.
Qed.

Lemma inference_stats_zero_duration_raises_witness :
  exists e,
    inference_stats (Fake.record 10 0 20 2000000000) Fake.world0 = (Raise e, Fake.world0) /\
    (e = ZeroDivisionError \/ e = OverflowError) /\
    (fields_satisfy in_float_range (Fake.record 10 0 20 2000000000) -> e = ZeroDivisionError).
Proof.
  apply (inference_stats_zero_duration_raises (Fake.record 10 0 20 2000000000) Fake.world0).
  left. reflexivity.
Defined.

(** C1 as stated fails: a record with a zero prompt_eval_duration makes
    [inference_stats] raise ZeroDivisionError, not an error named
    UndefinedRate. *)
Lemma inference_stats_zero_duration_not_UndefinedRate :
  prompt_eval_duration (Fake.record 10 0 20 2000000000) = 0 /\
  ~ (exists e w',
       inference_stats (Fake.record 10 0 20 2000000000) Fake.world0 = (Raise e, w') /\
       exn_name e = "UndefinedRate"%string).
Proof.
  split; [reflexivity|]. intros (e & w' & Hrun & Hname).
  vm_compute in Hrun. injection Hrun as <- _. discriminate Hname.
Qed.

(** C2 (as amended).  For all token counts [0 <= p], [0 <= e] and durations
    [0 < pd], [0 < ed] of a record whose counts and durations are all below
    [2^1022] in magnitude, [inference_stats] prints a report whose prompt
    rate is [p / (pd / 1e9)] and whose generation rate is [e / (ed / 1e9)],
    each division rounded to binary64, the conversion of nanoseconds to
    seconds being the division by 1e9; when the fields are in the signed
    64-bit range both rates are finite. *)
Theorem inference_stats_rates_in_range {B : Type} (r : OllamaResponse) (w : World B) :
  0 <= prompt_eval_count r -> 0 <= eval_count r ->
  0 < prompt_eval_duration r -> 0 < eval_duration r ->
  fields_satisfy in_float_range r ->
  exists rep,
    inference_stats r w = (Ok tt, appended w [OutStats rep]) /\
    rep_prompt_ts rep = Spec.rate (prompt_eval_count r) (prompt_eval_duration r) /\
    rep_response_ts rep = Spec.rate (eval_count r) (eval_duration r) /\
    nanosec_to_sec (prompt_eval_duration r) = Ok (Spec.secondsOf (prompt_eval_duration r)) /\
    nanosec_to_sec (eval_duration r) = Ok (Spec.secondsOf (eval_duration r)) /\
    (fields_satisfy in_int64_range r ->
     PyFloat.is_finite (rep_prompt_ts rep) = true /\
     PyFloat.is_finite (rep_response_ts rep) = true).
Proof.
  intros Hpc Hec Hpd Hed Hr.
  pose proof (inference_report_in_range r Hr ltac:(lia) ltac:(lia) ltac:(lia)) as Hrep.
  destruct Hr as (_ & _ & _ & Hrpd & _ & Hred).
  eexists. split; [rewrite inference_stats_run, Hrep; reflexivity|].
  cbn [rep_prompt_ts rep_response_ts].
  repeat split; try reflexivity.
  - apply nanosec_to_sec_in_range, in_float_range_lt, Hrpd.
  - apply nanosec_to_sec_in_range, in_float_range_lt, Hred.
  - destruct H as (_ & _ & Hc & Hd & _). apply rate_finite; try lia; now apply in_int64_range_lt.
  - destruct H as (_ & _ & _ & _ & Hc & Hd). apply rate_finite; try lia; now apply in_int64_range_lt.
Qed.

(** C2 as stated fails: a non-negative count of [2^1024] tokens, with
    positive durations, cannot be converted to a float; [inference_stats]
    raises OverflowError and yields no rate. *)
Lemma inference_stats_rates_overflow :
  0 <= prompt_eval_count (Fake.record (2 ^ 1024) 1 0 1) /\
  0 <= eval_count (Fake.record (2 ^ 1024) 1 0 1) /\
  0 < prompt_eval_duration (Fake.record (2 ^ 1024) 1 0 1) /\
  0 < eval_duration (Fake.record (2 ^ 1024) 1 0 1) /\
  inference_stats (Fake.record (2 ^ 1024) 1 0 1) Fake.world0
    = (Raise OverflowError, Fake.world0).
Proof. repeat split; try (vm_compute; first [reflexivity | discriminate]). Qed.

Lemma inference_stats_rates_in_range_witness :
  exists rep,
    inference_stats (Fake.record 10 1000000000 20 2000000000) Fake.world0
      = (Ok tt, appended Fake.world0 [OutStats rep]) /\
    rep_prompt_ts rep = Spec.rate 10 1000000000 /\
    rep_response_ts rep = Spec.rate 20 2000000000 /\
    nanosec_to_sec 1000000000 = Ok (Spec.secondsOf 1000000000) /\
    nanosec_to_sec 2000000000 = Ok (Spec.secondsOf 2000000000) /\
    (fields_satisfy in_int64_range (Fake.record 10 1000000000 20 2000000000) ->
     PyFloat.is_finite (rep_prompt_ts rep) = true /\
     PyFloat.is_finite (rep_response_ts rep) = true).
Proof.
  apply (inference_stats_rates_in_range (Fake.record 10 1000000000 20 2000000000) Fake.world0);
    try (cbn; lia).
  repeat split; vm_compute; reflexivity.
Defined.

(** C3 (as amended).  For every record with positive prompt_eval_duration
    and eval_duration whose counts and durations are all below [2^1022] in
    magnitude, the combined rate printed by [inference_stats] is
    [(p + e) / ((pd + ed) / 1e9)], total tokens over summed duration, each
    division rounded to binary64 (and finite when the fields are in the
    signed 64-bit range); and for [p = 10], [pd = 2e9], [e = 100],
    [ed = 1e9] it differs from the arithmetic mean of the two individual
    rates. *)
Theorem inference_stats_combined_rate_in_range {B : Type} (r : OllamaResponse) (w : World B) :
  0 < prompt_eval_duration r -> 0 < eval_duration r ->
  fields_satisfy in_float_range r ->
  (exists rep,
     inference_stats r w = (Ok tt, appended w [OutStats rep]) /\
     rep_total_ts rep =
       Spec.rate (prompt_eval_count r + eval_count r)
                 (prompt_eval_duration r + eval_duration r) /\
     (fields_satisfy in_int64_range r -> PyFloat.is_finite (rep_total_ts rep) = true)) /\
  (exists rep0,
     inference_report (Fake.record 10 2000000000 100 1000000000) = Ok rep0 /\
     SFeqb (rep_total_ts rep0)
           (Spec.mean (rep_prompt_ts rep0) (rep_response_ts rep0)) = false).
Proof.
  intros Hpd Hed Hr. split.
  - pose proof (inference_report_in_range r Hr ltac:(lia) ltac:(lia) ltac:(lia)) as Hrep.
    eexists. split; [rewrite inference_stats_run, Hrep; reflexivity|].
    cbn [rep_total_ts]. split; [reflexivity|].
    intros (_ & _ & Hpc & Hd1 & Hec & Hd2).
    apply rate_finite; try lia; now apply in_int64_range_add.
  - eexists. split; [vm_compute; reflexivity|]. vm_compute. reflexivity.
Qed.

Lemma inference_stats_combined_rate_in_range_witness :
  (exists rep,
     inference_stats (Fake.record 10 2000000000 100 1000000000) Fake.world0
       = (Ok tt, appended Fake.world0 [OutStats rep]) /\
     rep_total_ts rep = Spec.rate (10 + 100) (2000000000 + 1000000000) /\
     (fields_satisfy in_int64_range (Fake.record 10 2000000000 100 1000000000) ->
      PyFloat.is_finite (rep_total_ts rep) = true)) /\
  (exists rep0,
     inference_report (Fake.record 10 2000000000 100 1000000000) = Ok rep0 /\
     SFeqb (rep_total_ts rep0)
           (Spec.mean (rep_prompt_ts rep0) (rep_response_ts rep0)) = false).
Proof.
  apply (inference_stats_combined_rate_in_range (Fake.record 10 2000000000 100 1000000000) Fake.world0);
    try (cbn; lia).
  repeat split; vm_compute; reflexivity.
Defined.

(** C3 as stated fails: with positive durations and two counts of [2^1023]
    tokens, each individual rate is computed, but the sum of the counts
    cannot be converted to a float; [inference_stats] raises OverflowError
    and yields no combined rate. *)
Lemma inference_stats_combined_rate_overflow :
  0 < prompt_eval_duration (Fake.record (2 ^ 1023) 1000000000 (2 ^ 1023) 1000000000) /\
  0 < eval_duration (Fake.record (2 ^ 1023) 1000000000 (2 ^ 1023) 1000000000) /\
  tokens_per_sec (2 ^ 1023) 1000000000 = PyFloat.of_int (2 ^ 1023) /\
  inference_stats (Fake.record (2 ^ 1023) 1000000000 (2 ^ 1023) 1000000000) Fake.world0
    = (Raise OverflowError, Fake.world0).
Proof. repeat split; try (vm_compute; first [reflexivity | discriminate]). Qed.

(** The end-to-end example of the specification: 10 tokens in one second
    and 20 tokens in two seconds are both 10 tokens per second. *)
Example report_end_to_end :
  exists rep,
    inference_report (Fake.record 10 1000000000 20 2000000000) = Ok rep /\
    Ok (rep_prompt_ts rep) = PyFloat.of_int 10 /\
    Ok (rep_response_ts rep) = PyFloat.of_int 10 /\
    Ok (rep_total_ts rep) = PyFloat.of_int 10.
Proof. eexists. split; [vm_compute; reflexivity|]. repeat split. Qed.

Example report_diverging_rates :
  exists rep,
    inference_report (Fake.record 10 2000000000 100 1000000000) = Ok rep /\
    Ok (rep_prompt_ts rep) = PyFloat.of_int 5 /\
    Ok (rep_response_ts rep) = PyFloat.of_int 100 /\
    rep_total_ts rep = S754_finite false 5160374573028693 (-47) /\
    Spec.mean (rep_prompt_ts rep) (rep_response_ts rep) = S754_finite false 7388718138654720 (-47).
Proof. eexists. split; [vm_compute; reflexivity|]. repeat split. Qed.

(** A quotient beyond the largest float is an infinity, not an error. *)
Example rate_overflows_to_infinity :
  tokens_per_sec (10 ^ 308) 1 = Ok (S754_infinity false).
Proof. vm_compute. reflexivity. Qed.

(* ===================================================================== *)
(** * Construction and normalization of records                         *)
(* ===================================================================== *)

(** Construction from present values succeeds and stores them. *)
Lemma OllamaResponse_init_some
    (m : string) (c : option datetime) (msg : Message) (d : bool)
    (td ld pc pd ec ed : Z) :
  OllamaResponse_init (Some m) c msg (Some d)
    (Some td) (Some ld) (Some pc) (Some pd) (Some ec) (Some ed)
  = Ok {| model := m; created_at := c; message := msg; done := d;
          total_duration := td; load_duration := ld;
          prompt_eval_count := pc; prompt_eval_duration := pd;
          eval_count := ec; eval_duration := ed |}.
Proof. reflexivity. Qed.

(** C9 (as amended).  Every duration field and every count field of a
    constructed metrics record is an integer, equal to the value given to
    the constructor: construction checks no sign and succeeds for all
    integers, negative ones included. *)
Theorem OllamaResponse_init_keeps_integers
    (m : string) (c : option datetime) (msg : Message) (d : bool)
    (td ld pc pd ec ed : Z) :
  exists r,
    OllamaResponse_init (Some m) c msg (Some d)
      (Some td) (Some ld) (Some pc) (Some pd) (Some ec) (Some ed) = Ok r /\
    total_duration r = td /\ load_duration r = ld /\
    prompt_eval_duration r = pd /\ eval_duration r = ed /\
    prompt_eval_count r = pc /\ eval_count r = ec.
Proof. eexists. split; [apply OllamaResponse_init_some|]. cbn. repeat split. Qed.

(** C9 as stated fails: a record with negative durations and counts is
    constructed, not rejected. *)
Lemma OllamaResponse_init_accepts_negative :
  exists r,
    OllamaResponse_init (Some "m1"%string) None Fake.sample_message (Some true)
      (Some (-3)) (Some (-1)) (Some (-10)) (Some (-1000000000)) (Some (-20)) (Some (-2))
    = Ok r /\
    total_duration r < 0 /\ load_duration r < 0 /\
    prompt_eval_count r < 0 /\ prompt_eval_duration r < 0 /\
    eval_count r < 0 /\ eval_duration r < 0.
Proof. eexists. split; [reflexivity|]. cbn. lia. Qed.

(** Normalization of a response that carries every attribute copies them. *)
Lemma from_chat_response_complete (raw : RawResponse) :
  Spec.complete raw = true ->
  exists r,
    from_chat_response raw = Ok r /\
    raw_done raw = Some (done r) /\
    raw_model raw = Some (model r) /\
    created_at r = None /\
    raw_role (raw_message raw) = Some (role (message r)) /\
    raw_content (raw_message raw) = Some (content (message r)) /\
    raw_total_duration raw = Some (total_duration r) /\
    raw_load_duration raw = Some (load_duration r) /\
    raw_prompt_eval_count raw = Some (prompt_eval_count r) /\
    raw_prompt_eval_duration raw = Some (prompt_eval_duration r) /\
    raw_eval_count raw = Some (eval_count r) /\
    raw_eval_duration raw = Some (eval_duration r).
Proof.
  destruct raw as [mo [ro co] dn td ld pc pd ec ed]. unfold Spec.complete. cbn.
  destruct ro, co, mo, dn, td, ld, pc, pd, ec, ed; cbn; try discriminate.
  intros _. eexists. split; [reflexivity|]. cbn. repeat split.
Qed.

(** Normalization fails on a missing attribute, and only then. *)
Lemma from_chat_response_incomplete (raw : RawResponse) :
  Spec.complete raw = false -> from_chat_response raw = Raise ValidationError.
Proof.
  destruct raw as [mo [ro co] dn td ld pc pd ec ed]. unfold Spec.complete. cbn.
  destruct ro, co, mo, dn, td, ld, pc, pd, ec, ed; cbn; try discriminate; reflexivity.
Qed.

Section NormalizationFacts.

Context {B : Type}.
Variable ollama_chat : string -> list Message -> B -> result RawResponse * B.
Variable ollama_chat_stream : string -> list Message -> B -> result Stream * B.

(** A batch run whose response carries every attribute. *)
Lemma run_benchmark_batch_complete (model_name prompt : string) (w : World B)
    (raw : RawResponse) (b' : B) :
  ollama_chat model_name [ {| role := "user"; content := prompt |} ] (backend w)
    = (Ok raw, b') ->
  Spec.complete raw = true ->
  exists r,
    from_chat_response raw = Ok r /\
    run_benchmark ollama_chat ollama_chat_stream model_name prompt false w
      = (Ok (Some r), {| backend := b'; stdout := stdout w |}).
Proof.
  intros Hchat Hc. destruct (from_chat_response_complete raw Hc) as (r & Hr & _).
  exists r. split; [exact Hr|].
  unfold run_benchmark, try_except, run_benchmark_try, bind, call, ret, lift.
  rewrite Hchat. cbn. rewrite Hr. reflexivity.
Qed.

(** C4 (as amended).  [from_chat_response] does not inspect the done field:
    for every raw response that carries all the attributes of a record,
    whatever its done flag, it returns a record with the same done flag,
    and a batch run that receives this response returns the record as a
    successful result; normalization fails, with pydantic's
    ValidationError, when a required attribute is missing.  The program
    has no IncompleteResponse error. *)
Theorem from_chat_response_keeps_done (raw : RawResponse) :
  (Spec.complete raw = true ->
   exists r,
     from_chat_response raw = Ok r /\ raw_done raw = Some (done r) /\
     forall model_name prompt (w : World B) b',
       ollama_chat model_name [ {| role := "user"; content := prompt |} ] (backend w)
         = (Ok raw, b') ->
       run_benchmark ollama_chat ollama_chat_stream model_name prompt false w
         = (Ok (Some r), {| backend := b'; stdout := stdout w |})) /\
  (Spec.complete raw = false -> from_chat_response raw = Raise ValidationError).
Proof.
  split; [|apply from_chat_response_incomplete].
  intros Hc. destruct (from_chat_response_complete raw Hc) as (r & Hr & Hd & _).
  exists r. split; [exact Hr|]. split; [exact Hd|].
  intros model_name prompt w b' Hchat.
  destruct (run_benchmark_batch_complete model_name prompt w raw b' Hchat Hc)
    as (r' & Hr' & Hrun).
  rewrite Hr in Hr'. injection Hr' as <-. exact Hrun.
Qed.

End NormalizationFacts.

Lemma from_chat_response_keeps_done_witness :
  exists r,
    from_chat_response (Fake.raw "m1" false) = Ok r /\
    raw_done (Fake.raw "m1" false) = Some (done r) /\
    forall model_name prompt (w : World nat) b',
      Fake.chat model_name [ {| role := "user"; content := prompt |} ] (backend w)
        = (Ok (Fake.raw "m1" false), b') ->
      run_benchmark Fake.chat Fake.chat_stream model_name prompt false w
        = (Ok (Some r), {| backend := b'; stdout := stdout w |}).
Proof.
  apply (from_chat_response_keeps_done Fake.chat Fake.chat_stream (Fake.raw "m1" false)).
  reflexivity.
Defined.

(** C4 as stated fails: a complete raw response with done = false is
    normalized into a record with done = false, which [run_benchmark]
    returns to the loop as a successful result. *)
Lemma from_chat_response_accepts_not_done :
  raw_done (Fake.raw "m1" false) = Some false /\
  exists r,
    from_chat_response (Fake.raw "m1" false) = Ok r /\
    done r = false /\
    run_benchmark Fake.chat Fake.chat_stream "m1" "partial" false Fake.world0
      = (Ok (Some r), {| backend := 1%nat; stdout := [] |}).
Proof. split; [reflexivity|]. eexists. repeat split. Qed.

(* ===================================================================== *)
(** * Model selection                                                   *)
(* ===================================================================== *)

Lemma py_in_elem_of (x : string) (l : list string) : py_in x l = true <-> x ∈ l.
Proof.
  unfold py_in. rewrite existsb_exists. split.
  - intros (y & Hy & Heq). apply String.eqb_eq in Heq. subst y.
    apply list_elem_of_In. exact Hy.
  - intros Hx. exists x. split; [apply list_elem_of_In; exact Hx|apply String.eqb_refl].
Qed.

Lemma filter_py_in (available requested : list string) :
  List.filter (fun m => py_in m available) requested
  = filter (fun m => m ∈ available) requested.
Proof.
  induction requested as [|x xs IH]; [reflexivity|].
  cbn [List.filter]. rewrite filter_cons.
  destruct (py_in x available) eqn:E.
  - apply py_in_elem_of in E. rewrite decide_True by exact E. now rewrite IH.
  - rewrite decide_False; [exact IH|].
    intros Hx. apply py_in_elem_of in Hx. congruence.
Qed.

Lemma filter_length_lt (f : string -> bool) (l : list string) :
  (length (List.filter f l) <? length l)%nat = true <->
  exists x, x ∈ l /\ f x = false.
Proof.
  rewrite Nat.ltb_lt. induction l as [|x xs IH].
  - cbn. split; [lia|]. intros (x & Hx & _). inversion Hx.
  - pose proof (List.filter_length_le f xs) as Hle. cbn [List.filter].
    destruct (f x) eqn:E; cbn [length].
    + rewrite <- Nat.succ_lt_mono, IH. split.
      * intros (y & Hy & Hf). exists y. split; [now right|exact Hf].
      * intros (y & Hy & Hf). apply elem_of_cons in Hy as [->|Hy]; [congruence|].
        exists y. now split.
    + split; [|lia]. intros _. exists x. split; [now left|exact E].
Qed.

Lemma elem_of_missing_models (x : string) (test_models available : list string) :
  x ∈ missing_models test_models available <-> x ∈ test_models /\ x ∉ available.
Proof. unfold missing_models. set_solver. Qed.

Section SelectionFacts.

Context {B : Type}.
Variable ollama_list : B -> result (list string) * B.

(** C5.  When the backend lists its models, [get_benchmark_models] raises no
    error: for an empty request it returns exactly the backend's list, in
    the backend's order, and prints nothing; otherwise it returns the
    requested names that are available, in the order of the request, and
    prints them, after a warning that is emitted exactly when some requested
    model is not available and that names every such model. *)
Theorem get_benchmark_models_resolves (test_models : list string) (w : World B)
    (available : list string) (b' : B) :
  ollama_list (backend w) = (Ok available, b') ->
  exists out,
    get_benchmark_models ollama_list test_models w
      = (Ok (Spec.resolve available test_models),
         {| backend := b'; stdout := stdout w ++ out |}) /\
    (test_models = [] -> out = []) /\
    (test_models <> [] ->
     exists warning,
       out = warning ++ [OutEvaluating (Spec.resolve available test_models)] /\
       ((forall m, m ∈ test_models -> m ∈ available) -> warning = []) /\
       ((exists m, m ∈ test_models /\ m ∉ available) ->
        exists missing,
          warning = [OutWarningMissing missing] /\
          forall m, m ∈ missing <-> m ∈ test_models /\ m ∉ available)).
Proof.
  intros Hlist. unfold get_benchmark_models, bind, call. rewrite Hlist.
  destruct test_models as [|t ts].
  - exists []. unfold ret. cbn [Spec.resolve backend stdout]. rewrite app_nil_r.
    split; [reflexivity|]. split; [reflexivity|congruence].
  - set (tm := t :: ts). rewrite filter_py_in.
    change (Spec.resolve available tm) with (filter (fun m => m ∈ available) tm).
    destruct (length (filter (fun m => m ∈ available) tm) <? length tm)%nat eqn:E.
    + exists [OutWarningMissing (missing_models tm available);
              OutEvaluating (filter (fun m => m ∈ available) tm)].
      cbn. rewrite <- app_assoc. split; [reflexivity|]. split; [discriminate|].
      intros _. exists [OutWarningMissing (missing_models tm available)].
      split; [reflexivity|]. split.
      * intros Hall. exfalso. rewrite <- filter_py_in in E.
        apply filter_length_lt in E as (x & Hx & Hf).
        apply Hall, py_in_elem_of in Hx. congruence.
      * intros _. eexists. split; [reflexivity|]. intros m. apply elem_of_missing_models.
    + exists [OutEvaluating (filter (fun m => m ∈ available) tm)].
      cbn. split; [reflexivity|]. split; [discriminate|].
      intros _. exists []. split; [reflexivity|]. split; [reflexivity|].
      intros (m & Hm & Hna). exfalso.
      assert (Hlt : (length (List.filter (fun m => py_in m available) tm) <? length tm)%nat = true).
      { apply filter_length_lt. exists m. split; [exact Hm|].
        destruct (py_in m available) eqn:Ein; [|reflexivity].
        apply py_in_elem_of in Ein. contradiction. }
      rewrite filter_py_in in Hlt. congruence.
Qed.

End SelectionFacts.

Lemma get_benchmark_models_resolves_witness :
  exists out,
    get_benchmark_models Fake.list_models ["a"; "missing"; "b"]%string Fake.world0
      = (Ok (Spec.resolve ["a"; "b"] ["a"; "missing"; "b"])%string,
         {| backend := 0%nat; stdout := stdout Fake.world0 ++ out |}) /\
    (["a"; "missing"; "b"]%string = [] -> out = []) /\
    (["a"; "missing"; "b"]%string <> [] ->
     exists warning,
       out = warning ++ [OutEvaluating (Spec.resolve ["a"; "b"] ["a"; "missing"; "b"])%string] /\
       ((forall m, m ∈ ["a"; "missing"; "b"]%string -> m ∈ ["a"; "b"]%string) -> warning = []) /\
       ((exists m, m ∈ ["a"; "missing"; "b"]%string /\ m ∉ ["a"; "b"]%string) ->
        exists missing,
          warning = [OutWarningMissing missing] /\
          forall m, m ∈ missing <-> m ∈ ["a"; "missing"; "b"]%string /\ m ∉ ["a"; "b"]%string)).
Proof.
  apply (get_benchmark_models_resolves Fake.list_models
           ["a"; "missing"; "b"]%string Fake.world0 ["a"; "b"]%string 0%nat).
  reflexivity.
Defined.

Example resolve_example :
  Spec.resolve ["a"; "b"]%string ["a"; "missing"; "b"]%string = ["a"; "b"]%string.
Proof. reflexivity. Qed.

(* ===================================================================== *)
(** * Aggregation                                                       *)
(* ===================================================================== *)

Lemma fold_left_add_shift (xs : list Z) (a : Z) :
  fold_left Z.add xs a = a + fold_left Z.add xs 0.
Proof.
  revert a. induction xs as [|x xs IH]; intros a; cbn [fold_left]; [lia|].
  rewrite (IH (a + x)), (IH (0 + x)). lia.
Qed.

Lemma py_sum_total (field : OllamaResponse -> Z) (records : list OllamaResponse) :
  py_sum (map field records) = Spec.total field records.
Proof.
  unfold py_sum. induction records as [|r rs IH]; [reflexivity|].
  cbn [map fold_left Spec.total]. rewrite fold_left_add_shift, IH. lia.
Qed.

Lemma revapp_nonnil (d acc : Decimal.uint) :
  acc <> Decimal.Nil -> Decimal.revapp d acc <> Decimal.Nil.
Proof. revert acc. induction d; intros acc H; cbn; try apply IHd; congruence. Qed.

Lemma little_succ_nonnil (d : Decimal.uint) : Decimal.Little.succ d <> Decimal.Nil.
Proof. destruct d; discriminate. Qed.

Lemma to_little_uint_nonnil (n : nat) (acc : Decimal.uint) :
  acc <> Decimal.Nil -> Nat.to_little_uint n acc <> Decimal.Nil.
Proof.
  revert acc. induction n as [|n IH]; intros acc H; cbn; [exact H|].
  apply IH, little_succ_nonnil.
Qed.

Lemma to_uint_nonnil (n : nat) : Nat.to_uint n <> Decimal.Nil.
Proof.
  unfold Nat.to_uint, Decimal.rev.
  pose proof (to_little_uint_nonnil n Decimal.zero ltac:(discriminate)) as H.
  destruct (Nat.to_little_uint n Decimal.zero); try contradiction;
    cbn; apply revapp_nonnil; discriminate.
Qed.

(** [str_of_nat n] is the decimal numeral of [n]. *)
Lemma str_of_nat_decimal (n : nat) :
  option_map Nat.of_uint (NilZero.uint_of_string (str_of_nat n)) = Some n.
Proof.
  unfold str_of_nat. rewrite NilZero.usu by apply to_uint_nonnil.
  cbn. f_equal. apply DecimalNat.Unsigned.of_to.
Qed.

Lemma average_stats_res_eq (t : datetime) (first : OllamaResponse)
    (responses : list OllamaResponse) :
  average_stats_res t first responses =
    Ok {| model := model first;
          created_at := Some t;
          message := {| role := "system";
                        content := "Average stats across "
                                   +:+ str_of_nat (length responses) +:+ " runs" |};
          done := true;
          total_duration := Spec.total total_duration responses;
          load_duration := Spec.total load_duration responses;
          prompt_eval_count := Spec.total prompt_eval_count responses;
          prompt_eval_duration := Spec.total prompt_eval_duration responses;
          eval_count := Spec.total eval_count responses;
          eval_duration := Spec.total eval_duration responses |}.
Proof.
  unfold average_stats_res. rewrite OllamaResponse_init_some.
  rewrite !py_sum_total. reflexivity.
Qed.

Section AggregationFacts.

Context {B : Type}.
Variable datetime_now : B -> datetime * B.

Lemma average_stats_cons (first : OllamaResponse) (rest : list OllamaResponse)
    (w : World B) (res : OllamaResponse) :
  average_stats_res (fst (datetime_now (backend w))) first (first :: rest) = Ok res ->
  average_stats datetime_now (first :: rest) w =
    inference_stats res
      {| backend := snd (datetime_now (backend w));
         stdout := stdout w ++ [OutAverageStats] |}.
Proof.
  intros Hres. unfold average_stats, bind, now, lift, print.
  destruct (datetime_now (backend w)) as [t b'] eqn:E. cbn [fst snd] in *.
  rewrite Hres. reflexivity.
Qed.

(** C6.  For every non-empty list of per-run records, [average_stats] builds
    an aggregate record (and passes it to [inference_stats]) whose four
    duration fields and two count fields are the arithmetic sums of the
    fields across the list, not their means, whose message content is the
    note "Average stats across N runs" with N the decimal number of runs,
    and whose created_at is the clock read at aggregation time. *)
Theorem average_stats_sums_fields (first : OllamaResponse) (rest : list OllamaResponse)
    (w : World B) :
  exists res,
    average_stats_res (fst (datetime_now (backend w))) first (first :: rest) = Ok res /\
    average_stats datetime_now (first :: rest) w =
      inference_stats res
        {| backend := snd (datetime_now (backend w));
           stdout := stdout w ++ [OutAverageStats] |} /\
    total_duration res = Spec.total total_duration (first :: rest) /\
    load_duration res = Spec.total load_duration (first :: rest) /\
    prompt_eval_duration res = Spec.total prompt_eval_duration (first :: rest) /\
    eval_duration res = Spec.total eval_duration (first :: rest) /\
    prompt_eval_count res = Spec.total prompt_eval_count (first :: rest) /\
    eval_count res = Spec.total eval_count (first :: rest) /\
    content (message res) =
      "Average stats across " +:+ str_of_nat (length (first :: rest)) +:+ " runs" /\
    option_map Nat.of_uint
      (NilZero.uint_of_string (str_of_nat (length (first :: rest))))
      = Some (length (first :: rest)) /\
    created_at res = Some (fst (datetime_now (backend w))).
Proof.
  eexists. split; [apply average_stats_res_eq|].
  split; [apply average_stats_cons, average_stats_res_eq|].
  cbn [total_duration load_duration prompt_eval_duration eval_duration
       prompt_eval_count eval_count content message created_at].
  repeat split. apply str_of_nat_decimal.
Qed.

(** C7.  On an empty list of responses [average_stats] returns normally
    (Python's None), having printed only "No stats to average": it builds no
    aggregate record, computes no rate and does not read the clock. *)
Theorem average_stats_no_runs (w : World B) :
  average_stats datetime_now [] w = (Ok tt, appended w [OutNoStats]).
Proof. reflexivity. Qed.

(** C10.  For every non-empty list of per-run records, the aggregate record
    built by [average_stats] has the model of the first record of the list,
    whatever the models of the later records, and has done = true and the
    message role "system", whatever the done flags and roles of the
    records. *)
Theorem average_stats_model_done_role (first : OllamaResponse) (rest : list OllamaResponse)
    (w : World B) :
  exists res,
    average_stats_res (fst (datetime_now (backend w))) first (first :: rest) = Ok res /\
    average_stats datetime_now (first :: rest) w =
      inference_stats res
        {| backend := snd (datetime_now (backend w));
           stdout := stdout w ++ [OutAverageStats] |} /\
    model res = model first /\
    done res = true /\
    role (message res) = "system"%string.
Proof.
  eexists. split; [apply average_stats_res_eq|].
  split; [apply average_stats_cons, average_stats_res_eq|].
  repeat split.
Qed.

End AggregationFacts.

Example average_two_runs :
  exists res,
    average_stats_res 7 (Fake.record 10 1000000000 20 2000000000)
      [Fake.record 10 1000000000 20 2000000000; Fake.record 10 1000000000 20 2000000000]
    = Ok res /\
    prompt_eval_count res = 20 /\ eval_count res = 40 /\
    content (message res) = "Average stats across 2 runs"%string /\
    exists rep,
      inference_report res = Ok rep /\
      Ok (rep_prompt_ts rep) = PyFloat.of_int 10 /\
      Ok (rep_response_ts rep) = PyFloat.of_int 10.
Proof.
  eexists. split; [vm_compute; reflexivity|]. repeat split.
  eexists. split; [vm_compute; reflexivity|]. repeat split.
Qed.

(* ===================================================================== *)
(** * Containment of run failures                                       *)
(* ===================================================================== *)

Lemma nanosec_to_sec_raises (n : Z) (e : exn) :
  nanosec_to_sec n = Raise e -> e = OverflowError.
Proof.
  unfold nanosec_to_sec, PyFloat.int_truediv.
  change (1000000000 =? 0) with false. cbv iota.
  destruct (n =? 0); [discriminate|].
  destruct (PyFloat.is_infinity _); [intros [= <-]; reflexivity|discriminate].
Qed.

(** Displaying statistics raises nothing but the two arithmetic errors. *)
Lemma inference_report_raises (r : OllamaResponse) (e : exn) :
  inference_report r = Raise e -> e = ZeroDivisionError \/ e = OverflowError.
Proof.
  unfold inference_report.
  repeat match goal with
  | |- context [rbind (tokens_per_sec ?c ?d) _] =>
      let E := fresh "E" in
      destruct (tokens_per_sec c d) eqn:E; cbn [rbind];
      [|intros [= <-]; eapply tokens_per_sec_raises; eassumption]
  | |- context [rbind (nanosec_to_sec ?d) _] =>
      let E := fresh "E" in
      destruct (nanosec_to_sec d) eqn:E; cbn [rbind];
      [|intros [= <-]; right; eapply nanosec_to_sec_raises; eassumption]
  end.
  discriminate.
Qed.

Lemma dict_set_keys {V : Type} (k : string) (v : V) (d : list (string * V)) (k' : string) :
  k' ∈ (dict_set k v d).*1 <-> k' = k \/ k' ∈ d.*1.
Proof.
  induction d as [|[k0 v0] d IH]; cbn [dict_set].
  - cbn. rewrite list_elem_of_singleton. split; [auto|]. intros [H|H]; [exact H|inversion H].
  - destruct (String.eqb_spec k0 k) as [->|Hne]; cbn [fmap list_fmap fst].
    + rewrite !elem_of_cons. cbn. tauto.
    + rewrite !elem_of_cons, IH. cbn. tauto.
Qed.

Section ContainmentFacts.

Context {B : Type}.
Variable ollama_chat : string -> list Message -> B -> result RawResponse * B.
Variable ollama_chat_stream : string -> list Message -> B -> result Stream * B.

Lemma run_benchmark_returns (model_name prompt : string) (verbose : bool) (w : World B) :
  exists r w',
    run_benchmark ollama_chat ollama_chat_stream model_name prompt verbose w = (Ok r, w').
Proof.
  unfold run_benchmark, try_except.
  destruct (run_benchmark_try _ _ _ _ _ w) as [[r|e] w1]; [eauto|].
  unfold bind, print, ret. eauto.
Qed.


(** One turn of the prompt loop. *)
Lemma for_prompt_cons (model_name : string) (verbose : bool) (prompt : string)
    (prompts : list string) (responses : list OllamaResponse) (w : World B) :
  for_prompt ollama_chat ollama_chat_stream model_name verbose (prompt :: prompts) responses w =
    match run_benchmark ollama_chat ollama_chat_stream model_name prompt verbose
            (announced verbose model_name prompt w) with
    | (Ok (Some response), w2) =>
        if verbose then
          match inference_stats response
                  (appended w2 [OutResponse (content (message response))]) with
          | (Ok _, w3) =>
              for_prompt ollama_chat ollama_chat_stream model_name verbose prompts
                (responses ++ [response]) w3
          | (Raise e, w3) => (Raise e, w3)
          end
        else
          for_prompt ollama_chat ollama_chat_stream model_name verbose prompts
            (responses ++ [response]) w2
    | (Ok None, w2) =>
        for_prompt ollama_chat ollama_chat_stream model_name verbose prompts responses w2
    | (Raise e, w2) => (Raise e, w2)
    end.
Proof.
  cbn [for_prompt]. unfold bind at 1.
  destruct verbose; cbn [announced].
  - unfold print at 1. fold (appended w [OutBenchmarking model_name prompt]).
    unfold bind at 1.
    destruct (run_benchmark _ _ _ _ _ _) as [[[response|]|e] w2]; reflexivity.
  - unfold ret at 1. unfold bind at 1.
    destruct (run_benchmark _ _ _ _ _ _) as [[[response|]|e] w2]; reflexivity.
Qed.

Lemma for_prompt_skips (model_name : string) (verbose : bool) (prompt : string)
    (w w' : World B) :
  run_benchmark ollama_chat ollama_chat_stream model_name prompt verbose
    (announced verbose model_name prompt w) = (Ok None, w') ->
  forall prompts responses,
    for_prompt ollama_chat ollama_chat_stream model_name verbose (prompt :: prompts) responses w
    = for_prompt ollama_chat ollama_chat_stream model_name verbose prompts responses w'.
Proof. intros H prompts responses. rewrite for_prompt_cons, H. reflexivity. Qed.

Lemma for_prompt_raises (model_name : string) (verbose : bool) (prompts : list string) :
  forall responses (w w' : World B) e,
    for_prompt ollama_chat ollama_chat_stream model_name verbose prompts responses w
      = (Raise e, w') ->
    verbose = true /\ (e = ZeroDivisionError \/ e = OverflowError).
Proof.
  induction prompts as [|prompt prompts IH]; intros responses w w' e.
  - cbn. discriminate.
  - rewrite for_prompt_cons.
    destruct (run_benchmark_returns model_name prompt verbose
                (announced verbose model_name prompt w)) as (r & w2 & ->).
    destruct r as [response|]; [|apply IH].
    destruct verbose; [|apply IH].
    rewrite inference_stats_run.
    destruct (inference_report response) as [rep|e1] eqn:E; [apply IH|].
    intros [= <- _]. split; [reflexivity|]. eapply inference_report_raises, E.
Qed.

Lemma for_model_outcome (verbose : bool) (prompts model_names : list string) :
  forall benchmarks (w : World B),
    match for_model ollama_chat ollama_chat_stream verbose prompts model_names benchmarks w with
    | (Ok benchmarks', _) =>
        forall m, m ∈ model_names \/ m ∈ benchmarks.*1 -> m ∈ benchmarks'.*1
    | (Raise e, _) => verbose = true /\ (e = ZeroDivisionError \/ e = OverflowError)
    end.
Proof.
  induction model_names as [|model_name rest IH]; intros benchmarks w.
  - cbn. intros m [Hm|Hm]; [inversion Hm|exact Hm].
  - cbn [for_model]. unfold bind at 1.
    destruct (for_prompt _ _ model_name verbose prompts [] w) as [[responses|e] w1] eqn:E.
    + specialize (IH (dict_set model_name responses benchmarks) w1).
      destruct (for_model _ _ _ _ _ _ _) as [[benchmarks'|e] w2]; [|exact IH].
      intros m Hm. apply IH. rewrite dict_set_keys, elem_of_cons in *. tauto.
    + eapply for_prompt_raises, E.
Qed.

End ContainmentFacts.


Section SessionSpecFacts.

Context {B : Type}.
Variable ollama_chat : string -> list Message -> B -> result RawResponse * B.
Variable ollama_chat_stream : string -> list Message -> B -> result Stream * B.









End SessionSpecFacts.



(** A session on the fake backend: the failing prompt is reported and
    skipped, the prompts after it and the second model are recorded. *)
Example session_with_a_failure :
  for_model Fake.chat Fake.chat_stream false ["one"; "bad"; "two"]%string
    ["m1"; "m2"]%string [] Fake.world0
  = (Ok [("m1"%string, [Fake.record 10 1000000000 20 2000000000;
                        Fake.record 10 1000000000 20 2000000000]);
         ("m2"%string,
          [ {| model := "m2"; created_at := None; message := Fake.sample_message;
               done := true; total_duration := 3000000000; load_duration := 0;
               prompt_eval_count := 10; prompt_eval_duration := 1000000000;
               eval_count := 20; eval_duration := 2000000000 |};
            {| model := "m2"; created_at := None; message := Fake.sample_message;
               done := true; total_duration := 3000000000; load_duration := 0;
               prompt_eval_count := 10; prompt_eval_duration := 1000000000;
               eval_count := 20; eval_duration := 2000000000 |} ])],
     {| backend := 6%nat;
        stdout := [OutErrorBenchmarking "m1" (BackendError "ResponseError" "model not found");
                   OutErrorBenchmarking "m2" (BackendError "ResponseError" "model not found")] |}).
Proof. reflexivity. Qed.

(** In verbose mode a stream that breaks is reported and skipped as well. *)
Example verbose_stream_failure :
  run_benchmark Fake.chat Fake.chat_stream "m1" "bad" true Fake.world0
  = (Ok None,
     {| backend := 1%nat;
        stdout := [OutChunk (Some "o"%string);
                   OutErrorBenchmarking "m1" (BackendError "ConnectionError" "reset")] |}).
Proof. reflexivity. Qed.

(** What is not a run failure is not contained: in verbose mode a successful
    response with a zero duration stops the session in [inference_stats]. *)
Example verbose_zero_duration_escapes :
  exists w',
    for_prompt Fake.chat
      (fun model_name _ calls =>
         (Ok {| stream_chunks :=
                  [ {| raw_model := Some model_name;
                       raw_message := {| raw_role := Some "assistant"%string;
                                         raw_content := Some "ok"%string |};
                       raw_done := Some true;
                       raw_total_duration := Some 5; raw_load_duration := Some 0;
                       raw_prompt_eval_count := Some 10;
                       raw_prompt_eval_duration := Some 0;
                       raw_eval_count := Some 20; raw_eval_duration := Some 5 |} ];
                stream_failure := None |}, S calls))
      "m1" true ["one"; "two"]%string [] Fake.world0
    = (Raise ZeroDivisionError, w').
Proof. eexists. reflexivity. Qed.

(* ===================================================================== *)
(** * Streamed runs                                                     *)
(* ===================================================================== *)

Section StreamFacts.

Context {B : Type}.
Variable ollama_chat : string -> list Message -> B -> result RawResponse * B.
Variable ollama_chat_stream : string -> list Message -> B -> result Stream * B.

Lemma for_chunk_run (chunks : list RawResponse) (failure : option exn) :
  forall (last_element : option RawResponse) (w : World B),
    for_chunk chunks failure last_element w =
      (match failure with
       | Some e => Raise e
       | None => Ok (match last chunks with Some c => Some c | None => last_element end)
       end,
       appended w (chunk_output chunks)).
Proof.
  induction chunks as [|chunk rest IH]; intros last_element w.
  - cbn. unfold appended. cbn. rewrite app_nil_r.
    destruct w; destruct failure; reflexivity.
  - cbn [for_chunk]. unfold bind at 1. unfold print at 1. rewrite IH.
    unfold appended. cbn [backend stdout chunk_output map]. rewrite <- app_assoc.
    cbn [app]. destruct failure; [reflexivity|].
    rewrite last_cons. destruct (last rest); reflexivity.
Qed.

(** X1.  In verbose mode, when the stream ends without an error, [run_benchmark]
    prints the content of every chunk in order and normalizes only the last
    chunk: an empty stream gives None after "No response received", a last
    chunk that normalizes gives its record, and a last chunk that does not
    gives None after one error line. *)
Theorem run_benchmark_stream (model_name prompt : string) (w : World B)
    (chunks : list RawResponse) (b' : B) :
  ollama_chat_stream model_name [ {| role := "user"; content := prompt |} ] (backend w)
    = (Ok {| stream_chunks := chunks; stream_failure := None |}, b') ->
  run_benchmark ollama_chat ollama_chat_stream model_name prompt true w =
    match last chunks with
    | None =>
        (Ok None, {| backend := b'; stdout := stdout w ++ [OutNoResponse model_name] |})
    | Some final =>
        match from_chat_response final with
        | Ok r =>
            (Ok (Some r), {| backend := b'; stdout := stdout w ++ chunk_output chunks |})
        | Raise e =>
            (Ok None,
             {| backend := b';
                stdout := stdout w ++ chunk_output chunks
                            ++ [OutErrorBenchmarking model_name e] |})
        end
    end.
Proof.
  intros Hs. unfold run_benchmark, try_except, run_benchmark_try.
  unfold bind at 1. unfold bind at 1. unfold call at 1. rewrite Hs.
  cbn [stream_chunks stream_failure]. rewrite for_chunk_run.
  destruct (last chunks) as [final|] eqn:El.
  - unfold bind, lift, ret, print, appended. cbn [backend stdout].
    destruct (from_chat_response final); [reflexivity|].
    cbn [backend stdout]. rewrite <- app_assoc. reflexivity.
  - apply last_None in El. subst chunks. unfold bind, print, ret, appended. cbn.
    rewrite app_nil_r. reflexivity.
Qed.

(** X2.  In verbose mode, when the stream raises after some chunks, whatever
    they were (a final chunk included), [run_benchmark] returns None: the
    chunks received are printed, then one error line with the exception; no
    record is produced. *)
Theorem run_benchmark_stream_failure (model_name prompt : string) (w : World B)
    (chunks : list RawResponse) (e : exn) (b' : B) :
  ollama_chat_stream model_name [ {| role := "user"; content := prompt |} ] (backend w)
    = (Ok {| stream_chunks := chunks; stream_failure := Some e |}, b') ->
  run_benchmark ollama_chat ollama_chat_stream model_name prompt true w =
    (Ok None,
     {| backend := b';
        stdout := stdout w ++ chunk_output chunks ++ [OutErrorBenchmarking model_name e] |}).
Proof.
  intros Hs. unfold run_benchmark, try_except, run_benchmark_try.
  unfold bind at 1. unfold bind at 1. unfold call at 1. rewrite Hs.
  cbn [stream_chunks stream_failure]. rewrite for_chunk_run.
  unfold bind, print, ret, appended. cbn [backend stdout].
  rewrite <- app_assoc. reflexivity.
Qed.

End StreamFacts.

(* ===================================================================== *)
(** * Seconds and rates: zeros, signs, finiteness                       *)
(* ===================================================================== *)

(** X3.  For every integer below [2^1023] in magnitude, [nanosec_to_sec]
    returns a finite float that is zero exactly when the argument is zero
    and has the sign of the argument otherwise: a non-zero duration never
    underflows to a zero divisor. *)
Theorem nanosec_to_sec_zero_iff (nanosec : Z) :
  Z.abs nanosec < 2 ^ 1023 ->
  exists x,
    nanosec_to_sec nanosec = Ok x /\
    match x with
    | S754_zero s => nanosec = 0 /\ s = false
    | S754_finite s _ _ => nanosec <> 0 /\ s = (nanosec <? 0)
    | _ => False
    end.
Proof.
  intros Hr. rewrite (nanosec_to_sec_in_range nanosec Hr). eexists. split; [reflexivity|].
  destruct (Z.eq_dec nanosec 0) as [->|Hn]; [split; reflexivity|].
  destruct (secondsOf_finite nanosec Hn Hr) as (m & e & -> & _). split; [exact Hn|reflexivity].
Qed.

Lemma nanosec_to_sec_zero_iff_witness :
  exists x,
    nanosec_to_sec 1 = Ok x /\
    match x with
    | S754_zero s => 1 = 0 /\ s = false
    | S754_finite s _ _ => 1 <> 0 /\ s = (1 <? 0)
    | _ => False
    end.
Proof. apply (nanosec_to_sec_zero_iff 1). vm_compute. reflexivity. Defined.

(** X4.  For a count and a non-zero duration in the signed 64-bit range, the
    rate [count / nanosec_to_sec(duration)] is computed without error, is
    never an infinity or a NaN, is zero exactly when the count is zero, and
    is negative exactly when count and duration have opposite signs. *)
Theorem tokens_per_sec_int64 (count duration : Z) :
  in_int64_range count -> in_int64_range duration -> duration <> 0 ->
  exists x,
    tokens_per_sec count duration = Ok x /\
    match x with
    | S754_zero s => count = 0 /\ s = (duration <? 0)
    | S754_finite s _ _ => count <> 0 /\ s = xorb (count <? 0) (duration <? 0)
    | _ => False
    end.
Proof.
  intros Hc Hd Hn.
  apply in_int64_range_lt in Hc, Hd.
  assert (H65 : (2 : Z) ^ 65 < 2 ^ 1023) by (apply Z.pow_lt_mono_r; lia).
  rewrite tokens_per_sec_in_range by lia. eexists. split; [reflexivity|].
  unfold Spec.rate.
  destruct (secondsOf_finite duration Hn ltac:(lia)) as (ms & es & -> & Hs).
  pose proof (Zdigits2_range duration 65 Hn Hd) as Hdd.
  destruct (Z.eq_dec count 0) as [->|Hcn]; [split; reflexivity|].
  destruct (of_int_finite count Hcn ltac:(lia)) as (mc & ec & -> & Hcb).
  pose proof (Zdigits2_range count 65 Hcn Hc) as Hdc.
  destruct (SFdiv_finite (count <? 0) (duration <? 0) mc ms ec es) as (m & e & -> & _);
    [lia|]. split; [exact Hcn|reflexivity].
Qed.

Lemma tokens_per_sec_int64_witness :
  exists x,
    tokens_per_sec 10 (-1000000000) = Ok x /\
    match x with
    | S754_zero s => 10 = 0 /\ s = (-1000000000 <? 0)
    | S754_finite s _ _ => 10 <> 0 /\ s = xorb (10 <? 0) (-1000000000 <? 0)
    | _ => False
    end.
Proof.
  apply (tokens_per_sec_int64 10 (-1000000000)); unfold in_int64_range; lia.
Defined.

Lemma inference_report_zero_sum (r : OllamaResponse) :
  fields_satisfy in_float_range r ->
  prompt_eval_duration r + eval_duration r = 0 ->
  inference_report r = Raise ZeroDivisionError.
Proof.
  intros Hr Hs.
  destruct (Z.eq_dec (prompt_eval_duration r) 0) as [Hp|Hp].
  - destruct (inference_report_zero_duration r ltac:(auto)) as (e & -> & _ & He).
    now rewrite (He Hr).
  - assert (He : eval_duration r <> 0) by lia.
    destruct Hr as (_ & _ & Hpc & Hpd & Hec & Hed). unfold inference_report.
    rewrite (tokens_per_sec_in_range _ _ (in_float_range_lt _ Hpc) Hp (in_float_range_lt _ Hpd)).
    rewrite (tokens_per_sec_in_range _ _ (in_float_range_lt _ Hec) He (in_float_range_lt _ Hed)).
    cbn [rbind]. rewrite Hs.
    destruct (tokens_per_sec_zero_duration (prompt_eval_count r + eval_count r))
      as (e & -> & _ & Hz).
    rewrite (Hz (in_float_range_add _ _ Hpc Hec)). reflexivity.
Qed.

(** X5.  For a record whose fields are below [2^1022] in magnitude,
    [inference_stats] prints its report exactly when prompt_eval_duration,
    eval_duration and their sum are all non-zero; otherwise (durations of
    opposite sign that cancel included) it raises ZeroDivisionError and
    prints nothing. *)
Theorem inference_stats_succeeds_iff {B : Type} (r : OllamaResponse) (w : World B) :
  fields_satisfy in_float_range r ->
  (prompt_eval_duration r <> 0 /\ eval_duration r <> 0 /\
   prompt_eval_duration r + eval_duration r <> 0 ->
   exists rep, inference_stats r w = (Ok tt, appended w [OutStats rep])) /\
  (prompt_eval_duration r = 0 \/ eval_duration r = 0 \/
   prompt_eval_duration r + eval_duration r = 0 ->
   inference_stats r w = (Raise ZeroDivisionError, w)).
Proof.
  intros Hr. split.
  - intros (Hp & He & Hs). eexists.
    rewrite inference_stats_run, (inference_report_in_range r Hr Hp He Hs). reflexivity.
  - intros Hz. rewrite inference_stats_run.
    destruct Hz as [Hz|[Hz|Hz]].
    + destruct (inference_report_zero_duration r ltac:(auto)) as (e & -> & _ & He).
      now rewrite (He Hr).
    + destruct (inference_report_zero_duration r ltac:(auto)) as (e & -> & _ & He).
      now rewrite (He Hr).
    + now rewrite (inference_report_zero_sum r Hr Hz).
Qed.

Lemma inference_stats_succeeds_iff_witness :
  inference_stats (Fake.record 10 5 20 (-5)) Fake.world0
    = (Raise ZeroDivisionError, Fake.world0).
Proof.
  apply (inference_stats_succeeds_iff (Fake.record 10 5 20 (-5)) Fake.world0).
  - repeat split; vm_compute; reflexivity.
  - right. right. reflexivity.
Defined.

(* ===================================================================== *)
(** * Aggregate statistics                                              *)
(* ===================================================================== *)

Lemma total_app (field : OllamaResponse -> Z) (rs1 rs2 : list OllamaResponse) :
  Spec.total field (rs1 ++ rs2) = Spec.total field rs1 + Spec.total field rs2.
Proof. induction rs1 as [|r rs1 IH]; cbn [app Spec.total]; [reflexivity|]. rewrite IH. lia. Qed.

Lemma total_Permutation (field : OllamaResponse -> Z) (rs1 rs2 : list OllamaResponse) :
  rs1 ≡ₚ rs2 -> Spec.total field rs1 = Spec.total field rs2.
Proof. induction 1; cbn [Spec.total]; lia. Qed.

Section MoreAggregationFacts.

Context {B : Type}.
Variable datetime_now : B -> datetime * B.

(** X6.  When the six sums over a non-empty list of runs are below [2^1022] in
    magnitude and the summed durations do not vanish, [average_stats] prints
    "Average stats:" and then one report, under the model of the first run,
    whose rates are the summed counts over the summed durations: total
    tokens over total time, not a mean of the per-run rates. *)
Theorem average_stats_rates (first : OllamaResponse) (rest : list OllamaResponse)
    (w : World B) :
  totals_satisfy in_float_range (first :: rest) ->
  Spec.total prompt_eval_duration (first :: rest) <> 0 ->
  Spec.total eval_duration (first :: rest) <> 0 ->
  Spec.total prompt_eval_duration (first :: rest)
    + Spec.total eval_duration (first :: rest) <> 0 ->
  exists rep,
    average_stats datetime_now (first :: rest) w =
      (Ok tt, {| backend := snd (datetime_now (backend w));
                 stdout := stdout w ++ [OutAverageStats; OutStats rep] |}) /\
    rep_model rep = model first /\
    rep_prompt_ts rep =
      Spec.rate (Spec.total prompt_eval_count (first :: rest))
                (Spec.total prompt_eval_duration (first :: rest)) /\
    rep_response_ts rep =
      Spec.rate (Spec.total eval_count (first :: rest))
                (Spec.total eval_duration (first :: rest)) /\
    rep_total_ts rep =
      Spec.rate (Spec.total prompt_eval_count (first :: rest)
                 + Spec.total eval_count (first :: rest))
                (Spec.total prompt_eval_duration (first :: rest)
                 + Spec.total eval_duration (first :: rest)) /\
    rep_input_tokens rep = Spec.total prompt_eval_count (first :: rest) /\
    rep_generated_tokens rep = Spec.total eval_count (first :: rest).
Proof.
  intros Hr Hp He Hs.
  pose proof (average_stats_res_eq (fst (datetime_now (backend w))) first (first :: rest))
    as Hres.
  rewrite (average_stats_cons datetime_now first rest w _ Hres), inference_stats_run.
  match type of Hres with _ = Ok ?res => set (res0 := res) in * end.
  pose proof (inference_report_in_range res0 Hr Hp He Hs) as Hrep.
  rewrite Hrep. eexists. split.
  - cbn [backend stdout]. rewrite <- app_assoc. reflexivity.
  - repeat split.
Qed.

(** X7.  When the prompt_eval_duration or the eval_duration of a non-empty list
    of runs sums to zero, [average_stats] prints "Average stats:" and then
    raises an arithmetic error (ZeroDivisionError when the sums are in the
    float range) instead of printing statistics. *)
Theorem average_stats_zero_total (first : OllamaResponse) (rest : list OllamaResponse)
    (w : World B) :
  Spec.total prompt_eval_duration (first :: rest) = 0 \/
  Spec.total eval_duration (first :: rest) = 0 ->
  exists e,
    average_stats datetime_now (first :: rest) w =
      (Raise e, {| backend := snd (datetime_now (backend w));
                   stdout := stdout w ++ [OutAverageStats] |}) /\
    (e = ZeroDivisionError \/ e = OverflowError) /\
    (totals_satisfy in_float_range (first :: rest) -> e = ZeroDivisionError).
Proof.
  intros Hz.
  pose proof (average_stats_res_eq (fst (datetime_now (backend w))) first (first :: rest))
    as Hres.
  rewrite (average_stats_cons datetime_now first rest w _ Hres), inference_stats_run.
  match type of Hres with _ = Ok ?res => set (res0 := res) in * end.
  destruct (inference_report_zero_duration res0 Hz) as (e & -> & He & Hin).
  exists e. split; [reflexivity|]. split; [exact He|exact Hin].
Qed.

(** X8.  [average_stats] does not depend on the order of the runs after the
    first: reordering them changes neither what is printed nor what is
    raised. *)
Theorem average_stats_Permutation (first : OllamaResponse)
    (rest rest' : list OllamaResponse) (w : World B) :
  rest ≡ₚ rest' ->
  average_stats datetime_now (first :: rest) w
  = average_stats datetime_now (first :: rest') w.
Proof.
  intros Hp.
  assert (Hp' : first :: rest ≡ₚ first :: rest') by now constructor.
  pose proof (average_stats_res_eq (fst (datetime_now (backend w))) first (first :: rest))
    as Hres.
  pose proof (average_stats_res_eq (fst (datetime_now (backend w))) first (first :: rest'))
    as Hres'.
  rewrite <- (Permutation_length Hp') in Hres'.
  rewrite <- !(total_Permutation _ _ _ Hp') in Hres'.
  rewrite (average_stats_cons datetime_now first rest w _ Hres).
  rewrite (average_stats_cons datetime_now first rest' w _ Hres'). reflexivity.
Qed.

End MoreAggregationFacts.

(** X9.  Aggregation is additive: each duration and count of the aggregate of
    two lists of runs put together is the sum of the same field of the
    aggregates of the two lists. *)
Theorem average_stats_res_app (t t1 t2 : datetime) (first first1 first2 : OllamaResponse)
    (rs1 rs2 : list OllamaResponse) :
  exists res res1 res2,
    average_stats_res t first (rs1 ++ rs2) = Ok res /\
    average_stats_res t1 first1 rs1 = Ok res1 /\
    average_stats_res t2 first2 rs2 = Ok res2 /\
    total_duration res = total_duration res1 + total_duration res2 /\
    load_duration res = load_duration res1 + load_duration res2 /\
    prompt_eval_count res = prompt_eval_count res1 + prompt_eval_count res2 /\
    prompt_eval_duration res = prompt_eval_duration res1 + prompt_eval_duration res2 /\
    eval_count res = eval_count res1 + eval_count res2 /\
    eval_duration res = eval_duration res1 + eval_duration res2.
Proof.
  do 3 eexists. rewrite !average_stats_res_eq. repeat split; cbn; apply total_app.
Qed.

(* ===================================================================== *)
(** * The loops of main                                                 *)
(* ===================================================================== *)

Lemma dict_set_fst {V : Type} (k : string) (v : V) (d : list (string * V)) :
  (dict_set k v d).*1 = if decide (k ∈ d.*1) then d.*1 else d.*1 ++ [k].
Proof.
  induction d as [|[k0 v0] d IH]; cbn [dict_set fmap list_fmap fst].
  - rewrite decide_False by (intros H; inversion H). reflexivity.
  - destruct (String.eqb_spec k0 k) as [->|Hne]; cbn [fmap list_fmap fst].
    + rewrite decide_True by now left. reflexivity.
    + rewrite IH. destruct (decide (k ∈ d.*1)) as [Hin|Hin].
      * rewrite decide_True by now right. reflexivity.
      * rewrite decide_False; [reflexivity|].
        intros H. apply elem_of_cons in H as [->|H]; contradiction.
Qed.

Lemma dict_set_NoDup {V : Type} (k : string) (v : V) (d : list (string * V)) :
  NoDup d.*1 -> NoDup (dict_set k v d).*1.
Proof.
  intros Hd. rewrite dict_set_fst. destruct (decide (k ∈ d.*1)); [exact Hd|].
  apply NoDup_app. split; [exact Hd|]. split; [|apply NoDup_singleton].
  intros x Hx Hk. apply list_elem_of_singleton in Hk. subst x. contradiction.
Qed.

Section LoopFacts.

Context {B : Type}.
Variable ollama_chat : string -> list Message -> B -> result RawResponse * B.
Variable ollama_chat_stream : string -> list Message -> B -> result Stream * B.
Variable ollama_list : B -> result (list string) * B.
Variable datetime_now : B -> datetime * B.

Lemma for_model_keys_gen (verbose : bool) (prompts model_names : list string) :
  forall benchmarks (w w' : World B) d,
    for_model ollama_chat ollama_chat_stream verbose prompts model_names benchmarks w
      = (Ok d, w') ->
    (NoDup benchmarks.*1 -> NoDup d.*1) /\
    (forall m, m ∈ d.*1 <-> m ∈ model_names \/ m ∈ benchmarks.*1) /\
    (NoDup (benchmarks.*1 ++ model_names) -> d.*1 = benchmarks.*1 ++ model_names).
Proof.
  induction model_names as [|model_name rest IH]; intros benchmarks w w' d.
  - cbn. intros [= <- _]. split; [auto|]. split.
    + intros m. split; [auto|]. intros [H|H]; [inversion H|exact H].
    + intros _. now rewrite app_nil_r.
  - cbn [for_model]. unfold bind at 1.
    destruct (for_prompt _ _ model_name verbose prompts [] w) as [[responses|e] w1];
      [|discriminate].
    intros Hrun. apply IH in Hrun as (Hnd & Hmem & Hord). split; [|split].
    + intros Hb. apply Hnd, dict_set_NoDup, Hb.
    + intros m. rewrite Hmem, dict_set_keys, elem_of_cons. tauto.
    + intros Hb. rewrite dict_set_fst in Hord.
      apply NoDup_app in Hb as Hb'. destruct Hb' as (_ & Hdisj & _).
      rewrite decide_False in Hord by (intros Hin; apply (Hdisj _ Hin); now left).
      rewrite <- app_assoc in Hord. apply Hord, Hb.
Qed.

(** X10.  When the loop over the models ends normally, the dict of benchmarks has
    exactly one entry for each distinct model name, a name requested twice
    included, and for a request without repetition the entries are in the
    order of the request. *)
Theorem for_model_keys (verbose : bool) (prompts model_names : list string)
    (w w' : World B) (benchmarks : list (string * list OllamaResponse)) :
  for_model ollama_chat ollama_chat_stream verbose prompts model_names [] w
    = (Ok benchmarks, w') ->
  NoDup benchmarks.*1 /\
  (forall m, m ∈ benchmarks.*1 <-> m ∈ model_names) /\
  (NoDup model_names -> benchmarks.*1 = model_names).
Proof.
  intros Hrun. apply for_model_keys_gen in Hrun as (Hnd & Hmem & Hord).
  split; [apply Hnd, NoDup_nil_2|]. split; [|exact Hord].
  intros m. rewrite Hmem. cbn. split; [intros [H|H]; [exact H|inversion H]|auto].
Qed.

(** X11.  The loop over the prompts only appends: when it ends normally, the
    responses it started from are a prefix of the recorded ones, and at
    most one response per prompt was added. *)
Theorem for_prompt_records (model_name : string) (verbose : bool) (prompts : list string) :
  forall (responses : list OllamaResponse) (w w' : World B) recorded,
    for_prompt ollama_chat ollama_chat_stream model_name verbose prompts responses w
      = (Ok recorded, w') ->
    responses `prefix_of` recorded /\
    (length recorded <= length responses + length prompts)%nat.
Proof.
  induction prompts as [|prompt rest IH]; intros responses w w' recorded.
  - cbn. intros [= <- _]. split; [reflexivity|lia].
  - rewrite for_prompt_cons.
    destruct (run_benchmark _ _ _ _ _ _) as [[[response|]|e] w2]; [| |discriminate].
    + assert (Hstep : forall w3,
                for_prompt ollama_chat ollama_chat_stream model_name verbose rest
                  (responses ++ [response]) w3 = (Ok recorded, w') ->
                responses `prefix_of` recorded /\
                (length recorded <= length responses + length (prompt :: rest))%nat).
      { intros w3 H. apply IH in H as [Hp Hl]. rewrite length_app in Hl. cbn in *.
        split; [|lia]. etransitivity; [|exact Hp]. now apply prefix_app_r. }
      destruct verbose; [|apply Hstep].
      destruct (inference_stats _ _) as [[[]|e] w3]; [apply Hstep|discriminate].
    + intros H. apply IH in H as [Hp Hl]. cbn. split; [exact Hp|lia].
Qed.

(** X12.  In verbose mode, when a run succeeds but the statistics of its
    response cannot be computed, the loop over the prompts stops with that
    arithmetic error right after printing the response: the remaining
    prompts are not run. *)
Theorem for_prompt_display_failure (model_name prompt : string) (prompts : list string)
    (responses : list OllamaResponse) (w w2 : World B) (response : OllamaResponse)
    (e : exn) :
  run_benchmark ollama_chat ollama_chat_stream model_name prompt true
    (announced true model_name prompt w) = (Ok (Some response), w2) ->
  inference_report response = Raise e ->
  for_prompt ollama_chat ollama_chat_stream model_name true (prompt :: prompts) responses w
    = (Raise e, appended w2 [OutResponse (content (message response))]) /\
  (e = ZeroDivisionError \/ e = OverflowError).
Proof.
  intros Hrun Hrep. rewrite for_prompt_cons, Hrun, inference_stats_run, Hrep.
  split; [reflexivity|]. eapply inference_report_raises, Hrep.
Qed.

Lemma average_stats_raises (responses : list OllamaResponse) (w w' : World B) (e : exn) :
  average_stats datetime_now responses w = (Raise e, w') ->
  e = ZeroDivisionError \/ e = OverflowError.
Proof.
  destruct responses as [|first rest]; [discriminate|].
  rewrite (average_stats_cons datetime_now first rest w _ (average_stats_res_eq _ _ _)).
  rewrite inference_stats_run.
  destruct (inference_report _) as [rep|e1] eqn:E; [discriminate|].
  intros [= <- _]. eapply inference_report_raises, E.
Qed.

Lemma for_average_raises (items : list (string * list OllamaResponse)) :
  forall (w w' : World B) e,
    for_average datetime_now items w = (Raise e, w') ->
    e = ZeroDivisionError \/ e = OverflowError.
Proof.
  induction items as [|[k responses] rest IH]; intros w w' e; [discriminate|].
  cbn [for_average]. unfold bind at 1.
  destruct (average_stats datetime_now responses w) as [[[]|e1] w1] eqn:E.
  - apply IH.
  - intros [= <- _]. eapply average_stats_raises, E.
Qed.

Lemma main_run (args : Args) (w : World B) :
  main ollama_chat ollama_chat_stream ollama_list datetime_now args w =
    match get_benchmark_models ollama_list (arg_models args)
            (appended w [OutConfig (arg_verbose args) (arg_models args) (arg_prompts args)])
    with
    | (Ok model_names, w1) =>
        match for_model ollama_chat ollama_chat_stream (arg_verbose args)
                (arg_prompts args) model_names [] w1 with
        | (Ok benchmarks, w2) => for_average datetime_now benchmarks w2
        | (Raise e, w2) => (Raise e, w2)
        end
    | (Raise e, w1) => (Raise e, w1)
    end.
Proof.
  unfold main. unfold bind at 1. unfold print at 1.
  fold (appended w [OutConfig (arg_verbose args) (arg_models args) (arg_prompts args)]).
  unfold bind at 1.
  destruct (get_benchmark_models _ _ _) as [[model_names|e] w1]; [|reflexivity].
  unfold bind at 1. destruct (for_model _ _ _ _ _ _ _) as [[benchmarks|e] w2]; reflexivity.
Qed.

Lemma get_benchmark_models_run (test_models : list string) (w : World B) :
  match ollama_list (backend w) with
  | (Raise e, b') =>
      get_benchmark_models ollama_list test_models w
      = (Raise e, {| backend := b'; stdout := stdout w |})
  | (Ok _, _) =>
      exists names w', get_benchmark_models ollama_list test_models w = (Ok names, w')
  end.
Proof.
  unfold get_benchmark_models, bind, call.
  destruct (ollama_list (backend w)) as [[available|e] b']; [|reflexivity].
  destruct test_models as [|t ts]; [unfold ret; eauto|].
  destruct (_ <? _)%nat; unfold print, ret; eauto.
Qed.

(** X13.  When the backend cannot list its models, [main] raises that error
    after printing only its configuration line: no model is benchmarked. *)
Theorem main_list_failure (args : Args) (w : World B) (e : exn) (b' : B) :
  ollama_list (backend w) = (Raise e, b') ->
  main ollama_chat ollama_chat_stream ollama_list datetime_now args w =
    (Raise e,
     {| backend := b';
        stdout := stdout w
                  ++ [OutConfig (arg_verbose args) (arg_models args) (arg_prompts args)] |}).
Proof.
  intros Hl. rewrite main_run.
  pose proof (get_benchmark_models_run (arg_models args)
                (appended w [OutConfig (arg_verbose args) (arg_models args) (arg_prompts args)]))
    as H.
  cbn [appended backend] in H. rewrite Hl in H. rewrite H. reflexivity.
Qed.

(** X14.  An exception that leaves [main] is either the one raised by the
    listing of the models or an arithmetic error (ZeroDivisionError,
    OverflowError) of the statistics; no error of a chat request or of the
    normalization of a response ever leaves [main]. *)
Theorem main_raises (args : Args) (w w' : World B) (e : exn) :
  main ollama_chat ollama_chat_stream ollama_list datetime_now args w = (Raise e, w') ->
  (exists b', ollama_list (backend w) = (Raise e, b')) \/
  e = ZeroDivisionError \/ e = OverflowError.
Proof.
  rewrite main_run.
  pose proof (get_benchmark_models_run (arg_models args)
                (appended w [OutConfig (arg_verbose args) (arg_models args) (arg_prompts args)]))
    as H.
  cbn [appended backend] in H.
  destruct (ollama_list (backend w)) as [[available|e0] b'] eqn:El.
  - destruct H as (names & w1 & ->).
    destruct (for_model _ _ _ _ _ _ _) as [[benchmarks|e1] w2] eqn:Ef.
    + intros Ha. right. eapply for_average_raises, Ha.
    + intros [= <- _]. right.
      pose proof (for_model_outcome ollama_chat ollama_chat_stream (arg_verbose args)
                    (arg_prompts args) names [] w1) as Ho.
      rewrite Ef in Ho. apply Ho.
  - rewrite H. intros [= <- _]. left. eauto.
Qed.

End LoopFacts.

(* ===================================================================== *)
(** * Whole sessions                                                    *)
(* ===================================================================== *)

Lemma dict_set_values {V : Type} (P : V -> Prop) (k : string) (v : V)
    (d : list (string * V)) :
  P v -> Forall P d.*2 -> Forall P (dict_set k v d).*2.
Proof.
  intros Hv. induction d as [|[k0 v0] d IH]; cbn [dict_set fmap list_fmap snd].
  - intros _. repeat constructor. exact Hv.
  - intros Hd. apply Forall_cons in Hd as [H0 Hd].
    destruct (String.eqb k0 k); cbn [fmap list_fmap snd]; constructor; auto.
Qed.

Lemma filter_py_in_none (available requested : list string) :
  (forall m, m ∈ requested -> m ∉ available) ->
  List.filter (fun model => py_in model available) requested = [].
Proof.
  induction requested as [|x xs IH]; intros Hnone; [reflexivity|].
  cbn [List.filter]. destruct (py_in x available) eqn:E.
  - apply py_in_elem_of in E. exfalso. apply (Hnone x); [now left|exact E].
  - apply IH. intros m Hm. apply Hnone. now right.
Qed.

Section WholeSessionFacts.

Context {B : Type}.
Variable ollama_chat : string -> list Message -> B -> result RawResponse * B.
Variable ollama_chat_stream : string -> list Message -> B -> result Stream * B.
Variable ollama_list : B -> result (list string) * B.
Variable datetime_now : B -> datetime * B.

Lemma run_benchmark_batch_run (model_name prompt : string) (w : World B) :
  run_benchmark ollama_chat ollama_chat_stream model_name prompt false w =
    match ollama_chat model_name [ {| role := "user"; content := prompt |} ] (backend w) with
    | (Ok raw, b') =>
        match from_chat_response raw with
        | Ok r => (Ok (Some r), {| backend := b'; stdout := stdout w |})
        | Raise e =>
            (Ok None,
             {| backend := b'; stdout := stdout w ++ [OutErrorBenchmarking model_name e] |})
        end
    | (Raise e, b') =>
        (Ok None,
         {| backend := b'; stdout := stdout w ++ [OutErrorBenchmarking model_name e] |})
    end.
Proof.
  unfold run_benchmark, try_except, run_benchmark_try, bind, call, ret, lift, print.
  destruct (ollama_chat _ _ _) as [[raw|e] b']; [|reflexivity].
  destruct (from_chat_response raw); reflexivity.
Qed.

Lemma for_prompt_all_fail (model_name : string) (prompts : list string) :
  (forall m msgs b, exists e b', ollama_chat m msgs b = (Raise e, b')) ->
  forall (responses : list OllamaResponse) (w : World B),
    exists w',
      for_prompt ollama_chat ollama_chat_stream model_name false prompts responses w
      = (Ok responses, w').
Proof.
  intros Hdown. induction prompts as [|prompt rest IH]; intros responses w.
  - cbn. eauto.
  - rewrite for_prompt_cons, run_benchmark_batch_run.
    destruct (Hdown model_name [ {| role := "user"; content := prompt |} ]
                (backend (announced false model_name prompt w))) as (e & b' & ->).
    apply IH.
Qed.

Lemma for_model_all_fail (prompts model_names : list string) :
  (forall m msgs b, exists e b', ollama_chat m msgs b = (Raise e, b')) ->
  forall benchmarks (w : World B),
    Forall (fun rs => rs = []) benchmarks.*2 ->
    exists d w',
      for_model ollama_chat ollama_chat_stream false prompts model_names benchmarks w
        = (Ok d, w') /\
      Forall (fun rs => rs = []) d.*2.
Proof.
  intros Hdown. induction model_names as [|model_name rest IH]; intros benchmarks w Hb.
  - cbn. eauto.
  - cbn [for_model]. unfold bind at 1.
    destruct (for_prompt_all_fail model_name prompts Hdown [] w) as (w1 & ->).
    apply IH. now apply dict_set_values.
Qed.



(** X16.  When every chat request is answered by a complete response, the
    non-verbose loop over the prompts records exactly one response per
    prompt and prints nothing. *)
Theorem for_prompt_all_succeed (model_name : string) (prompts : list string) :
  (forall m msgs b, exists raw b',
      ollama_chat m msgs b = (Ok raw, b') /\ Spec.complete raw = true) ->
  forall (responses : list OllamaResponse) (w : World B),
    exists recorded w',
      for_prompt ollama_chat ollama_chat_stream model_name false prompts responses w
        = (Ok recorded, w') /\
      length recorded = (length responses + length prompts)%nat /\
      stdout w' = stdout w.
Proof.
  intros Hup. induction prompts as [|prompt rest IH]; intros responses w.
  - cbn. exists responses, w. split; [reflexivity|]. split; [lia|reflexivity].
  - rewrite for_prompt_cons, run_benchmark_batch_run. cbn [announced].
    destruct (Hup model_name [ {| role := "user"; content := prompt |} ] (backend w))
      as (raw & b' & -> & Hc).
    destruct (from_chat_response_complete raw Hc) as (r & -> & _).
    destruct (IH (responses ++ [r]) {| backend := b'; stdout := stdout w |})
      as (recorded & w' & -> & Hlen & Hout).
    exists recorded, w'. split; [reflexivity|]. rewrite length_app in Hlen. cbn in *.
    split; [lia|exact Hout].
Qed.

(** X17.  When models are requested and none of them is available, [main] makes
    no chat request and ends normally after three lines: the configuration,
    the warning with the missing models, and an empty list of models to
    evaluate. *)
Theorem main_nothing_available (args : Args) (w : World B) (available : list string)
    (b1 : B) :
  ollama_list (backend w) = (Ok available, b1) ->
  arg_models args <> [] ->
  (forall m, m ∈ arg_models args -> m ∉ available) ->
  main ollama_chat ollama_chat_stream ollama_list datetime_now args w =
    (Ok tt,
     {| backend := b1;
        stdout := stdout w
                  ++ [OutConfig (arg_verbose args) (arg_models args) (arg_prompts args);
                      OutWarningMissing (missing_models (arg_models args) available);
                      OutEvaluating []] |}).
Proof.
  intros Hl Hne Hnone. rewrite main_run.
  unfold get_benchmark_models, bind at 1, call at 1. cbn [appended backend stdout].
  rewrite Hl. destruct (arg_models args) as [|t ts] eqn:Em; [congruence|].
  rewrite <- Em in *.
  rewrite (filter_py_in_none available (arg_models args) Hnone). rewrite Em at 1. cbn [length Nat.ltb Nat.leb].
  unfold bind, print, ret. cbn [backend stdout for_model for_average].
  unfold ret. rewrite <- !app_assoc. reflexivity.
Qed.

End WholeSessionFacts.


Section BackendDownFacts.

Context {B : Type}.
Variable ollama_chat : string -> list Message -> B -> result RawResponse * B.
Variable ollama_chat_stream : string -> list Message -> B -> result Stream * B.
Variable ollama_list : B -> result (list string) * B.
Variable datetime_now : B -> datetime * B.



End BackendDownFacts.


(** With the backend down, a session on two models and two prompts. *)
Example session_backend_down :
  main Sample.chat_down Fake.chat_stream Fake.list_models Fake.clock Sample.quiet_args
    Fake.world0
  = (Ok tt,
     {| backend := 4%nat;
        stdout :=
          [OutConfig false [] ["one"; "two"];
           OutErrorBenchmarking "a" (BackendError "ConnectionError" "connection refused");
           OutErrorBenchmarking "a" (BackendError "ConnectionError" "connection refused");
           OutErrorBenchmarking "b" (BackendError "ConnectionError" "connection refused");
           OutErrorBenchmarking "b" (BackendError "ConnectionError" "connection refused");
           OutNoStats; OutNoStats] |}).
Proof. reflexivity. Qed.

(* ===================================================================== *)
(** * Sessions on the sample backends                                   *)
(* ===================================================================== *)

Lemma run_benchmark_stream_witness :
  run_benchmark Fake.chat Fake.chat_stream "m1" "good" true Fake.world0 =
    match last [Fake.partial_chunk "m1" "o"; Fake.raw "m1" true] with
    | None =>
        (Ok None, {| backend := 1%nat; stdout := stdout Fake.world0 ++ [OutNoResponse "m1"] |})
    | Some final =>
        match from_chat_response final with
        | Ok r =>
            (Ok (Some r),
             {| backend := 1%nat;
                stdout := stdout Fake.world0
                          ++ chunk_output [Fake.partial_chunk "m1" "o"; Fake.raw "m1" true] |})
        | Raise e =>
            (Ok None,
             {| backend := 1%nat;
                stdout := stdout Fake.world0
                          ++ chunk_output [Fake.partial_chunk "m1" "o"; Fake.raw "m1" true]
                          ++ [OutErrorBenchmarking "m1" e] |})
        end
    end.
Proof.
  apply (run_benchmark_stream Fake.chat Fake.chat_stream "m1" "good" Fake.world0
           [Fake.partial_chunk "m1" "o"; Fake.raw "m1" true] 1%nat).
  reflexivity.
Defined.

Lemma run_benchmark_stream_failure_witness :
  run_benchmark Fake.chat Fake.chat_stream "m1" "bad" true Fake.world0 =
    (Ok None,
     {| backend := 1%nat;
        stdout := stdout Fake.world0 ++ chunk_output [Fake.partial_chunk "m1" "o"]
                  ++ [OutErrorBenchmarking "m1" (BackendError "ConnectionError" "reset")] |}).
Proof.
  apply (run_benchmark_stream_failure Fake.chat Fake.chat_stream "m1" "bad" Fake.world0
           [Fake.partial_chunk "m1" "o"] (BackendError "ConnectionError" "reset") 1%nat).
  reflexivity.
Defined.

Lemma average_stats_rates_witness :
  exists rep,
    average_stats Fake.clock
      [Fake.record 10 1000000000 20 2000000000; Fake.record 30 1000000000 40 2000000000]
      Fake.world0 =
      (Ok tt, {| backend := 0%nat; stdout := [OutAverageStats; OutStats rep] |}) /\
    rep_prompt_ts rep = Spec.rate 40 2000000000 /\
    rep_response_ts rep = Spec.rate 60 4000000000 /\
    rep_total_ts rep = Spec.rate 100 6000000000.
Proof.
  destruct (average_stats_rates Fake.clock (Fake.record 10 1000000000 20 2000000000)
              [Fake.record 30 1000000000 40 2000000000] Fake.world0)
    as (rep & Hrun & _ & Hp & Hr & Ht & _).
  - repeat split; vm_compute; reflexivity.
  - vm_compute. discriminate.
  - vm_compute. discriminate.
  - vm_compute. discriminate.
  - exists rep. split; [exact Hrun|]. split; [exact Hp|]. split; [exact Hr|exact Ht].
Defined.

Lemma average_stats_zero_total_witness :
  exists e,
    average_stats Fake.clock [Fake.record 10 0 20 5] Fake.world0 =
      (Raise e, {| backend := 0%nat; stdout := [OutAverageStats] |}) /\
    (e = ZeroDivisionError \/ e = OverflowError) /\
    (totals_satisfy in_float_range [Fake.record 10 0 20 5] -> e = ZeroDivisionError).
Proof.
  apply (average_stats_zero_total Fake.clock (Fake.record 10 0 20 5) [] Fake.world0).
  left. reflexivity.
Defined.

Lemma average_stats_Permutation_witness :
  average_stats Fake.clock
    [Fake.record 1 2 3 4; Fake.record 10 20 30 40; Fake.record 5 6 7 8] Fake.world0
  = average_stats Fake.clock
      [Fake.record 1 2 3 4; Fake.record 5 6 7 8; Fake.record 10 20 30 40] Fake.world0.
Proof.
  apply (average_stats_Permutation Fake.clock (Fake.record 1 2 3 4)
           [Fake.record 10 20 30 40; Fake.record 5 6 7 8]
           [Fake.record 5 6 7 8; Fake.record 10 20 30 40] Fake.world0).
  apply perm_swap.
Defined.

Lemma for_model_keys_witness :
  exists benchmarks w',
    for_model Fake.chat Fake.chat_stream false ["one"] ["m1"; "m2"; "m1"] [] Fake.world0
      = (Ok benchmarks, w') /\
    NoDup benchmarks.*1 /\
    (forall m, m ∈ benchmarks.*1 <-> m ∈ ["m1"; "m2"; "m1"]) /\
    (NoDup ["m1"; "m2"; "m1"] -> benchmarks.*1 = ["m1"; "m2"; "m1"]).
Proof.
  eexists. eexists. split; [reflexivity|].
  eapply (for_model_keys Fake.chat Fake.chat_stream false ["one"] ["m1"; "m2"; "m1"]
            Fake.world0).
  reflexivity.
Defined.

Lemma for_prompt_records_witness :
  exists recorded w',
    for_prompt Fake.chat Fake.chat_stream "m1" false ["one"; "bad"; "two"] [] Fake.world0
      = (Ok recorded, w') /\
    [] `prefix_of` recorded /\
    (length recorded <= length (@nil OllamaResponse) + length ["one"; "bad"; "two"])%nat.
Proof.
  eexists. eexists. split; [reflexivity|].
  eapply (for_prompt_records Fake.chat Fake.chat_stream "m1" false ["one"; "bad"; "two"]
            [] Fake.world0).
  reflexivity.
Defined.

Lemma for_prompt_display_failure_witness :
  exists w2 response,
    for_prompt Fake.chat Sample.chat_stream_cached "m1" true ["one"; "two"] [] Fake.world0
      = (Raise ZeroDivisionError, appended w2 [OutResponse (content (message response))]) /\
    (ZeroDivisionError = ZeroDivisionError \/ ZeroDivisionError = OverflowError).
Proof.
  eexists. eexists.
  eapply (for_prompt_display_failure Fake.chat Sample.chat_stream_cached "m1" "one"
            ["two"] [] Fake.world0).
  - reflexivity.
  - vm_compute. reflexivity.
Defined.

Lemma main_list_failure_witness :
  main Fake.chat Fake.chat_stream Sample.list_down Fake.clock Sample.quiet_args Fake.world0 =
    (Raise (BackendError "ConnectionError" "connection refused"),
     {| backend := 0%nat;
        stdout := stdout Fake.world0
                  ++ [OutConfig (arg_verbose Sample.quiet_args) (arg_models Sample.quiet_args)
                        (arg_prompts Sample.quiet_args)] |}).
Proof.
  apply (main_list_failure Fake.chat Fake.chat_stream Sample.list_down Fake.clock
           Sample.quiet_args Fake.world0).
  reflexivity.
Defined.

Lemma main_raises_witness :
  (exists b', Sample.list_down (backend Fake.world0)
              = (Raise (BackendError "ConnectionError" "connection refused"), b')) \/
  BackendError "ConnectionError" "connection refused" = ZeroDivisionError \/
  BackendError "ConnectionError" "connection refused" = OverflowError.
Proof.
  eapply (main_raises Fake.chat Fake.chat_stream Sample.list_down Fake.clock
            Sample.quiet_args Fake.world0).
  reflexivity.
Defined.

Lemma for_prompt_all_succeed_witness :
  exists recorded w',
    for_prompt Sample.chat_up Fake.chat_stream "m1" false ["one"; "two"; "three"] []
      Fake.world0 = (Ok recorded, w') /\
    length recorded = (length (@nil OllamaResponse) + length ["one"; "two"; "three"])%nat /\
    stdout w' = stdout Fake.world0.
Proof.
  apply (for_prompt_all_succeed Sample.chat_up Fake.chat_stream "m1" ["one"; "two"; "three"]).
  intros m msgs b. eexists. eexists. split; reflexivity.
Defined.

Lemma main_nothing_available_witness :
  main Fake.chat Fake.chat_stream Fake.list_models Fake.clock
    {| arg_verbose := false; arg_models := ["llama2:13b"]; arg_prompts := ["one"] |}
    Fake.world0 =
    (Ok tt,
     {| backend := 0%nat;
        stdout := stdout Fake.world0
                  ++ [OutConfig false ["llama2:13b"] ["one"];
                      OutWarningMissing (missing_models ["llama2:13b"] ["a"; "b"]);
                      OutEvaluating []] |}).
Proof.
  apply (main_nothing_available Fake.chat Fake.chat_stream Fake.list_models Fake.clock
           {| arg_verbose := false; arg_models := ["llama2:13b"]; arg_prompts := ["one"] |}
           Fake.world0 ["a"; "b"] 0%nat).
  - reflexivity.
  - discriminate.
  - intros m Hm Ha. apply list_elem_of_singleton in Hm. subst m.
    repeat (apply elem_of_cons in Ha as [Ha|Ha]; [discriminate Ha|]). inversion Ha.
Defined.
